(** * Slack workspace export: a shallow embedding of the export pipeline

    The development follows the Go packages [export] (the orchestrator:
    [Run], [users], [messages], [filterOutStrangeChannels],
    [exportConversation], [downloadFn], [validName], [saveChannel],
    [serializeToFile]) and [slackdump] ([withRetry]).

    Go values are modelled as follows.
    - [string] is [string]; a Go [map[string]T] is a [gmap string T];
      slices are lists, [append] is [++].
    - A Go result [(v, err)] is a pair whose second component is an
      [option error]; [None] is [nil].
    - Everything a method mutates (the file system below the export
      directory, the downloader the orchestrator owns, the log and the
      execution trace) lives in the record [State], which every
      effectful function receives and returns.
    - Remote answers and operating-system failures are data: the record
      [SlackDumper] holds what the workspace answers, the record [Env]
      says which system calls fail. *)

From stdpp Require Import base strings list gmap.
From Stdlib Require Import ZArith.

Local Open Scope string_scope.
Local Open Scope list_scope.
Local Open Scope stdpp_scope.

(** ** Errors *)

(** The error values the pipeline builds or inspects.  [Errorf ctx e] is
    [fmt.Errorf(ctx + ": %w", e)]; [WithStack e] is an error annotated
    with its call context; [OtherError] stands for any error of the
    operating system or of the remote service. *)
Inductive error : Type :=
| ErrNotStarted
| errUnknownEntity
| ErrRetryExhausted
| RateLimitedError (retryAfter : Z)
| OtherError (msg : string)
| Errorf (ctx : string) (e : error)
| WithStack (e : error).

#[global] Instance error_eq_dec : EqDecision error.
Proof. solve_decision. Defined.

(** [errors.Is]: the target is the error itself or one it wraps. *)
Fixpoint errors_Is (err target : error) : bool :=
  if decide (err = target) then true
  else match err with
       | Errorf _ e => errors_Is e target
       | WithStack e => errors_Is e target
       | _ => false
       end.

(** [errors.As] with a [*slack.RateLimitedError] target. *)
Fixpoint isRateLimited (err : error) : bool :=
  match err with
  | RateLimitedError _ => true
  | Errorf _ e => isRateLimited e
  | WithStack e => isRateLimited e
  | _ => false
  end.

(** ** Data model *)

Module User.
Record t : Type := mk { ID : string; Name : string }.
End User.

Module Channel.
Record t : Type := mk {
  ID : string;
  Name : string;
  NameNormalized : string;
  IsIM : bool;
  User : string
}.
End Channel.

Module File.
Record t : Type := mk { ID : string; Name : string }.
End File.

Module Message.
Record t : Type := mk {
  Timestamp : string;
  Text : string;
  Files : list File.t
}.
End Message.

#[global] Instance user_eq_dec : EqDecision User.t.
Proof. solve_decision. Defined.
#[global] Instance channel_eq_dec : EqDecision Channel.t.
Proof. solve_decision. Defined.
#[global] Instance file_eq_dec : EqDecision File.t.
Proof. solve_decision. Defined.
#[global] Instance message_eq_dec : EqDecision Message.t.
Proof. solve_decision. Defined.

Abbreviation Users := (list User.t).
Abbreviation userIndex := (gmap string User.t).
Abbreviation messagesByDate := (gmap string (list Message.t)).

(** [slackdump.ProcessResult]. *)
Record ProcessResult : Type := mkProcessResult {
  Entity : string;
  Count : nat
}.

(** The zero value [slackdump.ProcessResult{}]. *)
Definition ProcessResult_zero : ProcessResult := mkProcessResult "" 0.

(** What the pipeline writes to the log ([dlog.Printf]), to the
    execution trace ([trace.Logf]), and the lifecycle calls received by
    the downloader. *)
Inductive Event : Type :=
| LogFilterOut (user : string)
| LogSent (name : string)
| TraceUnsupported (ch : Channel.t)
| TraceUserNotFound (user : string)
| DownloaderStart
| DownloaderStop.

#[global] Instance event_eq_dec : EqDecision Event.
Proof. solve_decision. Defined.

(** The JSON documents the export writes.  [DocTruncated] is a file
    that was created but whose encoding failed. *)
Inductive Doc : Type :=
| DocUsers (us : Users)
| DocChannels (chans : list Channel.t)
| DocMessages (ms : list Message.t)
| DocTruncated.

(** ** Name resolution and the compatibility filter *)

Definition userPrefix : string := "IM-".

(** [validName] returns the directory name of a channel, the error, and
    what it wrote to the execution trace. *)
Definition validName (ch : Channel.t) (uidx : userIndex)
  : string * option error * list Event :=
  if bool_decide (Channel.NameNormalized ch ≠ "") then
    (Channel.NameNormalized ch, None, [])
  else if negb (Channel.IsIM ch) then
    ("", Some errUnknownEntity, [TraceUnsupported ch])
  else
    match uidx !! Channel.User ch with
    | Some user => (userPrefix +:+ User.Name user, None, [])
    | None =>
        (userPrefix +:+ Channel.User ch, None,
         [TraceUserNotFound (Channel.User ch)])
    end.

(** One iteration of the loop of [filterOutStrangeChannels]. *)
Definition filterStep (acc : list Channel.t * list Event) (c : Channel.t)
  : list Channel.t * list Event :=
  if bool_decide (Channel.Name c ≠ "")
     && bool_decide (Channel.NameNormalized c ≠ "")
  then (acc.1 ++ [c], acc.2)
  else (acc.1, acc.2 ++ [LogFilterOut (Channel.User c)]).

(** [filterOutStrangeChannels] returns the filtered slice and the log
    lines it printed. *)
Definition filterOutStrangeChannels (chans : list Channel.t)
  : list Channel.t * list Event :=
  foldl filterStep ([], []) chans.

(** ** The world around the exporter *)

(** Which system calls fail, and with which error.  [createFails] is
    [os.Create], [encodeFails] the JSON encoder writing into the open
    file, [mkdirFails] is [os.MkdirAll], [fetchFails] a download worker
    failing on a file.  [dateOf] is the calendar date ("YYYY-MM-DD") of
    a message's timestamp, [None] when the timestamp cannot be read. *)
Record Env : Type := mkEnv {
  createFails : string → option error;
  encodeFails : string → option error;
  mkdirFails : string → option error;
  fetchFails : File.t → option error;
  dateOf : Message.t → option string
}.

(** What the remote workspace answers: the user list, the channel
    listing for the requested channel types (the channels delivered
    before the listing ends or fails), and the pages of a conversation's
    history inside a time window (the pages delivered before the history
    ends or fails). *)
Record SlackDumper : Type := mkSlackDumper {
  remoteUsers : Users * option error;
  remoteChannels : list string → list Channel.t * option error;
  remoteHistory : string → Z → Z → list (list Message.t) * option error
}.

(** [slackdump.Conversation]: the messages of one channel. *)
Record Conversation : Type := mkConversation {
  Messages : list Message.t
}.

(** Modelled from the spec: the package [downloader] is not part of the
    sources.  The downloader is stopped or running; while running it
    accepts attachment references (target directory and file) for its
    workers. *)
Record Downloader : Type := mkDownloader {
  started : bool;
  accepted : list (string * File.t)
}.

(** The mutable world: files and directories below the export
    directory, the downloader created by [messages] (the pointer [dl] of
    the source always refers to it), and the events observed so far. *)
Record State : Type := mkState {
  files : gmap string Doc;
  dirs : gset string;
  dl : Downloader;
  log : list Event
}.

Definition setFiles (f : gmap string Doc → gmap string Doc) (s : State) : State :=
  mkState (f (files s)) (dirs s) (dl s) (log s).
Definition setDirs (f : gset string → gset string) (s : State) : State :=
  mkState (files s) (f (dirs s)) (dl s) (log s).
Definition setDl (f : Downloader → Downloader) (s : State) : State :=
  mkState (files s) (dirs s) (f (dl s)) (log s).
Definition emit (evs : list Event) (s : State) : State :=
  mkState (files s) (dirs s) (dl s) (log s ++ evs).

(** [export.Options], the time window as Unix seconds. *)
Record Options : Type := mkOptions {
  Oldest : Z;
  Latest : Z;
  IncludeFiles : bool
}.

(** [export.Export]. *)
Record Export : Type := mkExport {
  dir : string;
  dumper : SlackDumper;
  opts : Options
}.

(** [slackdump.AllChanTypes]. *)
Definition AllChanTypes : list string :=
  ["mpim"; "im"; "public_channel"; "private_channel"].

(** [filepath.Join] of two elements: empty elements are dropped, the
    others are joined by the separator.  The final [Clean] of the Go
    function is not modelled: names are taken to be clean. *)
Definition Join (a b : string) : string :=
  if decide (a = "") then b
  else if decide (b = "") then a
  else a +:+ "/" +:+ b.

(** Modelled from the spec: [Users.IndexByID] is not part of the
    sources.  It maps each user ID to its user; for a repeated ID the
    last user wins. *)
Definition IndexByID (us : Users) : userIndex :=
  foldl (λ idx u, <[User.ID u := u]> idx) ∅ us.

(** Modelled from the spec: [SlackDumper.ExtractFiles] is not part of
    the sources.  It collects the attachment references of a batch of
    messages, in message order. *)
Definition ExtractFiles (msg : list Message.t) : list File.t :=
  flat_map Message.Files msg.

(** Modelled from the spec: [downloader.New], [Start] and [Stop]. *)
Definition Downloader_New : Downloader := mkDownloader false [].

Definition Start (s : State) : State :=
  emit [DownloaderStart] (setDl (λ d, mkDownloader true (accepted d)) s).

Definition Stop (s : State) : State :=
  emit [DownloaderStop] (setDl (λ d, mkDownloader false (accepted d)) s).

Section Exporter.

Variable env : Env.

(** Modelled from the spec: [downloader.Client.DownloadFile].  A stopped
    downloader does nothing and reports the not-started condition; a
    running one accepts the reference, or reports the failure of the
    worker. *)
Definition DownloadFile (dir : string) (f : File.t) (s : State)
  : State * option error :=
  if started (dl s) then
    match fetchFails env f with
    | Some e => (s, Some e)
    | None =>
        (setDl (λ d, mkDownloader (started d) (accepted d ++ [(dir, f)])) s,
         None)
    end
  else (s, Some ErrNotStarted).

(** ** Serialisation *)

(** The verb [%q] of [fmt]: the string between double quotes (escapes
    inside the string are not modelled). *)
Definition quoted (x : string) : string :=
  let dq := String (Ascii.ascii_of_nat 34) EmptyString in
  dq +:+ x +:+ dq.

(** [serialize], on the writer of the open file [filename]. *)
Definition serialize (filename : string) (data : Doc) (s : State)
  : State * option error :=
  match encodeFails env filename with
  | Some e => (s, Some (Errorf "serialize: failed to encode" e))
  | None => (setFiles <[filename := data]> s, None)
  end.

(** [serializeToFile]: [os.Create] truncates the file, then the data
    is encoded into it. *)
Definition serializeToFile (filename : string) (data : Doc) (s : State)
  : State * option error :=
  match createFails env filename with
  | Some e =>
      (s, Some (Errorf ("serializeToFile: failed to create " +:+ quoted filename) e))
  | None => serialize filename data (setFiles <[filename := DocTruncated]> s)
  end.

Definition basedir (se : Export) (channelName : string) : string :=
  Join (dir se) channelName.

(** The loop of [saveChannel] over the entries of the map. *)
Fixpoint saveFiles (basedir : string)
    (entries : list (string * list Message.t)) (s : State)
  : State * option error :=
  match entries with
  | [] => (s, None)
  | (date, messages) :: rest =>
      let output := Join basedir (date +:+ ".json") in
      let '(s1, err) := serializeToFile output (DocMessages messages) s in
      match err with
      | Some e => (s1, Some e)
      | None => saveFiles basedir rest s1
      end
  end.

(** [saveChannel].  Go ranges over the map in an unspecified order; the
    model ranges over [map_to_list]. *)
Definition saveChannel (se : Export) (channelName : string)
    (msgs : messagesByDate) (s : State) : State * option error :=
  let basedir := basedir se channelName in
  match mkdirFails env basedir with
  | Some e =>
      (s, Some (Errorf ("unable to create directory " +:+ quoted channelName) e))
  | None => saveFiles basedir (map_to_list msgs) (setDirs (λ d, {[basedir]} ∪ d) s)
  end.

(** ** Attachments *)

(** The loop of the function returned by [downloadFn]; [n] is
    [len(files)] of the whole batch. *)
Fixpoint downloadLoop (dir : string) (n : nat) (fs : list File.t) (s : State)
  : State * (ProcessResult * option error) :=
  match fs with
  | [] => (s, (mkProcessResult "files" n, None))
  | f :: rest =>
      let '(s1, err) := DownloadFile dir f s in
      match err with
      | Some e =>
          if errors_Is e ErrNotStarted
          then (s1, (mkProcessResult "files" 0, None))
          else (s1, (ProcessResult_zero, Some e))
      | None => downloadLoop dir n rest (emit [LogSent (File.Name f)] s1)
      end
  end.

(** [downloadFn]: the process function handed to [DumpMessagesRaw]. *)
Definition downloadFn (se : Export) (channelName : string)
    (msg : list Message.t) (channelID : string) (s : State)
  : State * (ProcessResult * option error) :=
  let dir := Join (basedir se channelName) "attachments" in
  let fs := ExtractFiles msg in
  downloadLoop dir (length fs) fs s.

(** ** Message history *)

(** Modelled from the spec: [SlackDumper.DumpMessagesRaw] is not part
    of the sources.  It walks the pages of the history in order, hands
    each page to the process function and accumulates the messages; an
    error of the process function or of the remote service ends the
    dump with that error and no conversation. *)
Fixpoint dumpPages (pages : list (list Message.t)) (channelID : string)
    (processFn : list Message.t → string → State → State * (ProcessResult * option error))
    (acc : list Message.t) (s : State)
  : State * (list Message.t * option error) :=
  match pages with
  | [] => (s, (acc, None))
  | page :: rest =>
      let '(s1, (_, err)) := processFn page channelID s in
      match err with
      | Some e => (s1, ([], Some e))
      | None => dumpPages rest channelID processFn (acc ++ page) s1
      end
  end.

Definition DumpMessagesRaw (sd : SlackDumper) (channelID : string)
    (oldest latest : Z)
    (processFn : list Message.t → string → State → State * (ProcessResult * option error))
    (s : State) : State * (Conversation * option error) :=
  let '(pages, remoteErr) := remoteHistory sd channelID oldest latest in
  let '(s1, (ms, err)) := dumpPages pages channelID processFn [] s in
  match err with
  | Some e => (s1, (mkConversation [], Some e))
  | None =>
      match remoteErr with
      | Some e => (s1, (mkConversation [], Some e))
      | None => (s1, (mkConversation ms, None))
      end
  end.

(** Modelled from the spec: [Export.byDate] is not part of the sources.
    It groups the messages by the calendar date of their timestamp;
    inside a date the messages keep the order of the input. *)
Fixpoint groupByDate (ms : list Message.t) (acc : messagesByDate)
  : messagesByDate * option error :=
  match ms with
  | [] => (acc, None)
  | m :: rest =>
      match dateOf env m with
      | None => (∅, Some (OtherError "invalid timestamp"))
      | Some d => groupByDate rest (<[d := default [] (acc !! d) ++ [m]]> acc)
      end
  end.

Definition byDate (c : Conversation) (users : Users)
  : messagesByDate * option error :=
  groupByDate (Messages c) ∅.

(** ** The orchestrator *)

(** [exportConversation]. *)
Definition exportConversation (se : Export) (ch : Channel.t) (users : Users)
    (s : State) : State * option error :=
  let dlFn := downloadFn se (Channel.Name ch) in
  let '(s1, (messages, err)) :=
    DumpMessagesRaw (dumper se) (Channel.ID ch)
      (Oldest (opts se)) (Latest (opts se)) dlFn s in
  match err with
  | Some e =>
      (s1, Some (Errorf ("failed dumping " +:+ quoted (Channel.Name ch)
                         +:+ " (" +:+ Channel.ID ch +:+ ")") e))
  | None =>
      if bool_decide (length (Messages messages) = 0) then (s1, None)
      else
        let '(msgs, err) := byDate messages users in
        match err with
        | Some e => (s1, Some (Errorf "exportChannelData: error" e))
        | None =>
            let '(name, err, traced) := validName ch (IndexByID users) in
            let s2 := emit traced s1 in
            match err with
            | Some e => (s2, Some e)
            | None => saveChannel se name msgs s2
            end
        end
  end.

(** Modelled from the spec: [SlackDumper.StreamChannels] is not part of
    the sources.  It hands each channel of the listing to the callback
    as it arrives; an error of the callback or of the listing ends the
    stream with that error. *)
Fixpoint streamLoop {Σ : Type} (cb : Channel.t → Σ → Σ * option error)
    (chans : list Channel.t) (σ : Σ) : Σ * option error :=
  match chans with
  | [] => (σ, None)
  | ch :: rest =>
      let '(σ1, err) := cb ch σ in
      match err with
      | Some e => (σ1, Some e)
      | None => streamLoop cb rest σ1
      end
  end.

Definition StreamChannels {Σ : Type} (sd : SlackDumper) (chanTypes : list string)
    (cb : Channel.t → Σ → Σ * option error) (σ : Σ) : Σ * option error :=
  let '(chans, remoteErr) := remoteChannels sd chanTypes in
  let '(σ1, err) := streamLoop cb chans σ in
  match err with
  | Some e => (σ1, Some e)
  | None => (σ1, remoteErr)
  end.

(** The callback [messages] hands to [StreamChannels]; the slice
    [chans] it captures travels with the state. *)
Definition messagesCallback (se : Export) (users : Users) (ch : Channel.t)
    (σ : State * list Channel.t) : (State * list Channel.t) * option error :=
  let '(s, chans) := σ in
  let '(s1, err) := exportConversation se ch users s in
  match err with
  | Some e => ((s1, chans), Some e)
  | None => ((s1, chans ++ [ch]), None)
  end.

(** [messages]. *)
Definition messages (se : Export) (users : Users) (s : State)
  : State * option error :=
  let s := setDl (λ _, Downloader_New) s in
  let s := if IncludeFiles (opts se) then Start s else s in
  let '((s1, chans), err) :=
    StreamChannels (dumper se) AllChanTypes (messagesCallback se users) (s, []) in
  match err with
  | Some e => (s1, Some (Errorf "channels: error" e))
  | None =>
      let '(s2, _) :=
        serializeToFile (Join (dir se) "channels_full.json.bak")
          (DocChannels chans) s1 in
      let '(chans, printed) := filterOutStrangeChannels chans in
      serializeToFile (Join (dir se) "channels.json") (DocChannels chans)
        (emit printed s2)
  end.

(** Modelled from the spec: [SlackDumper.GetUsers] is not part of the
    sources.  It fetches all users of the workspace. *)
Definition GetUsers (sd : SlackDumper) : Users * option error :=
  remoteUsers sd.

(** [users]. *)
Definition users (se : Export) (s : State) : State * (Users * option error) :=
  let '(us, err) := GetUsers (dumper se) in
  match err with
  | Some e => (s, ([], Some e))
  | None =>
      let '(s1, err) := serializeToFile (Join (dir se) "users.json") (DocUsers us) s in
      match err with
      | Some e => (s1, ([], Some e))
      | None => (s1, (us, None))
      end
  end.

(** [Run]. *)
Definition Run (se : Export) (s : State) : State * option error :=
  let '(s1, (us, err)) := users se s in
  match err with
  | Some e => (s1, Some e)
  | None =>
      let '(s2, err) := messages se us s1 in
      match err with
      | Some e => (s2, Some e)
      | None => (s2, None)
      end
  end.

End Exporter.

(** ** The retry policy *)

(** Modelled from the spec: [network.WithRetry] is not part of the
    sources.  It runs the callback; on a rate-limit signal it waits and
    runs it again, at most [maxAttempts] times in all; any other error
    is returned at once, annotated with the call context; running out of
    attempts is the error [ErrRetryExhausted].  The callback changes a
    state of type [Σ]. *)
Fixpoint retryLoop {Σ : Type} (attempts : nat) (fn : Σ → Σ * option error)
    (σ : Σ) : Σ * option error :=
  match attempts with
  | O => (σ, Some ErrRetryExhausted)
  | S n =>
      let '(σ1, err) := fn σ in
      match err with
      | None => (σ1, None)
      | Some e =>
          if isRateLimited e then retryLoop n fn σ1
          else (σ1, Some (WithStack e))
      end
  end.

Definition WithRetry {Σ : Type} (maxAttempts : Z) (fn : Σ → Σ * option error)
    (σ : Σ) : Σ * option error :=
  retryLoop (Z.to_nat maxAttempts) fn σ.

(** [withRetry] of package [slackdump]: it hands its arguments to
    [network.WithRetry]. *)
Definition withRetry {Σ : Type} (maxAttempts : Z) (fn : Σ → Σ * option error)
    (σ : Σ) : Σ * option error :=
  WithRetry maxAttempts fn σ.

(** A callback instrumented with the number of times it was invoked. *)
Definition counted {Σ : Type} (fn : Σ → Σ * option error)
    (σn : Σ * nat) : (Σ * nat) * option error :=
  let '(σ1, err) := fn σn.1 in ((σ1, S σn.2), err).

(** [rateLimitedThen fn σ k r]: started in [σ], the callback answers a
    rate-limit signal [k] times in a row and [r] on the next call. *)
Fixpoint rateLimitedThen {Σ : Type} (fn : Σ → Σ * option error) (σ : Σ)
    (k : nat) (r : option error) : Prop :=
  match k with
  | O => (fn σ).2 = r
  | S k' =>
      (∃ e, (fn σ).2 = Some e ∧ isRateLimited e = true)
      ∧ rateLimitedThen fn (fn σ).1 k' r
  end.

(** The callback fails with a rate-limit signal exactly [k] times and
    then succeeds. *)
Definition failsThenSucceeds {Σ : Type} (fn : Σ → Σ * option error) (σ : Σ)
    (k : nat) : Prop :=
  rateLimitedThen fn σ k None.

(** The state the callback leaves after [n] calls. *)
Fixpoint afterCalls {Σ : Type} (fn : Σ → Σ * option error) (σ : Σ) (n : nat) : Σ :=
  match n with
  | O => σ
  | S n' => afterCalls fn (fn σ).1 n'
  end.

(** The messages found in a file of the export ([[]] when the file is
    absent or holds another document). *)
Definition fileMessages (s : State) (path : string) : list Message.t :=
  match files s !! path with
  | Some (DocMessages ms) => ms
  | _ => []
  end.

(** All messages of a grouping, bucket after bucket. *)
Definition bucketed (msgs : messagesByDate) : list Message.t :=
  mjoin (snd <$> map_to_list msgs).

(** The predicate the loop of [filterOutStrangeChannels] tests. *)
Definition fullyNamed (c : Channel.t) : Prop :=
  Channel.Name c ≠ "" ∧ Channel.NameNormalized c ≠ "".

#[global] Instance fullyNamed_dec c : Decision (fullyNamed c).
Proof. unfold fullyNamed. apply _. Defined.

(** The lifecycle calls received by the downloader. *)
Definition Lifecycle (e : Event) : Prop :=
  e = DownloaderStart ∨ e = DownloaderStop.

#[global] Instance Lifecycle_dec e : Decision (Lifecycle e).
Proof. unfold Lifecycle. apply _. Defined.

(** Whether the downloader runs, and the lifecycle calls it has
    received so far, oldest first. *)
Definition lifecycle (s : State) : bool * list Event :=
  (started (dl s), filter Lifecycle (log s)).

(** The downloader as [messages] sets it up before it streams the
    channels. *)
Definition prepared (se : Export) (s : State) : State :=
  let s := setDl (λ _, Downloader_New) s in
  if IncludeFiles (opts se) then Start s else s.

(** ** A sample workspace *)

Module Sample.

(** No system call fails; the sample timestamps start with the date. *)
Definition env : Env :=
  mkEnv (λ _, None) (λ _, None) (λ _, None) (λ _, None)
    (λ m, Some (String.substring 0 10 (Message.Timestamp m))).

(** The worker fetching [notes.txt] fails. *)
Definition envOffline : Env :=
  mkEnv (λ _, None) (λ _, None) (λ _, None)
    (λ f, if decide (File.Name f = "notes.txt")
          then Some (OtherError "404 not found") else None)
    (λ m, Some (String.substring 0 10 (Message.Timestamp m))).

Definition empty : State := mkState ∅ ∅ Downloader_New [].

Definition alice : User.t := User.mk "U1" "alice".
Definition bob : User.t := User.mk "U2" "bob".

Definition general : Channel.t := Channel.mk "C01" "general" "general" false "".
Definition direct : Channel.t := Channel.mk "D01" "" "" true "U2".
Definition stranger : Channel.t := Channel.mk "D02" "" "" true "U9".
Definition nameless : Channel.t := Channel.mk "X01" "" "" false "".
Definition halfNamed : Channel.t := Channel.mk "C02" "random" "" false "".

Definition photo : File.t := File.mk "F1" "photo.png".
Definition notes : File.t := File.mk "F2" "notes.txt".

Definition m1 : Message.t := Message.mk "2022-02-17T10:00:00" "hello" [].
Definition m2 : Message.t := Message.mk "2022-02-17T11:30:00" "look" [photo].
Definition m3 : Message.t := Message.mk "2022-02-18T09:15:00" "bye" [notes].
Definition m4 : Message.t := Message.mk "2022-02-18T09:20:00" "psst" [].

(** Two users, a public channel with three messages on two dates in
    two pages, and a direct-message channel with one message. *)
Definition workspace : SlackDumper :=
  mkSlackDumper ([alice; bob], None)
    (λ _, ([general; direct], None))
    (λ id _ _, if decide (id = "C01") then ([[m1; m2]; [m3]], None)
               else if decide (id = "D01") then ([[m4]], None)
               else ([], None)).

(** The same workspace with a channel that has no name and is not a
    direct-message channel, holding one message. *)
Definition workspaceNameless : SlackDumper :=
  mkSlackDumper ([alice; bob], None)
    (λ _, ([general; nameless; direct], None))
    (λ id _ _, if decide (id = "C01") then ([[m1; m2]; [m3]], None)
               else if decide (id = "X01") then ([[m4]], None)
               else ([], None)).

(** The same channels, the nameless one without any message. *)
Definition workspaceSilent : SlackDumper :=
  mkSlackDumper ([alice; bob], None)
    (λ _, ([general; nameless], None))
    (λ id _ _, if decide (id = "C01") then ([[m1; m2]; [m3]], None)
               else ([[]], None)).

(** A workspace whose second channel cannot be dumped. *)
Definition workspaceBroken : SlackDumper :=
  mkSlackDumper ([alice; bob], None)
    (λ _, ([general; direct], None))
    (λ id _ _, if decide (id = "C01") then ([[m1; m2]; [m3]], None)
               else ([], Some (OtherError "channel_not_found"))).

Definition window : Options := mkOptions 0 2000000000 true.
Definition windowNoFiles : Options := mkOptions 0 2000000000 false.

Definition export : Export := mkExport "out" workspace window.
Definition exportNoFiles : Export := mkExport "out" workspace windowNoFiles.
Definition exportNameless : Export := mkExport "out" workspaceNameless window.
Definition exportSilent : Export := mkExport "out" workspaceSilent window.
Definition exportBroken : Export := mkExport "out" workspaceBroken window.

(** A callback that is rate-limited on its first two calls; its
    state is the number of calls made so far. *)
Definition flaky (calls : nat) : nat * option error :=
  (S calls, if bool_decide (calls < 2)%nat then Some (RateLimitedError 30) else None).

(** A callback that is rate-limited once and then fails for good. *)
Definition doomed (calls : nat) : nat * option error :=
  (S calls, if bool_decide (calls < 1)%nat then Some (RateLimitedError 30)
            else Some (OtherError "invalid_auth")).

End Sample.

(** ** The session: column widths, the user cache, cookies *)

(** [maxStringLength] of package [slackdump]: the largest number of
    runes of a string of the slice, [0] for an empty slice.  The rune
    counter of package [utf8] is an argument; a count is never
    negative, so it is a [nat]. *)
Definition maxStringLength (RuneCountInString : string → nat)
    (strings : list string) : nat :=
  foldl (λ maxlen x,
           let l := RuneCountInString x in
           if bool_decide (maxlen < l)%nat then l else maxlen)
        0%nat strings.

(** What [os.Stat] tells about a file: [os.FileInfo] with the size in
    bytes and the modification time in nanoseconds. *)
Module FileInfo.
Record t : Type := mk { IsDir : bool; Size : Z; ModTime : Z }.
End FileInfo.

(** The bounds of [time.Duration], a signed 64-bit count of
    nanoseconds. *)
Definition minDuration : Z := - 2 ^ 63.
Definition maxDuration : Z := 2 ^ 63 - 1.

(** [time.Since(t)] when the clock reads [now]: the time elapsed, which
    [Time.Sub] keeps inside the bounds of a duration. *)
Definition Since (now t : Z) : Z :=
  Z.max minDuration (Z.min maxDuration (now - t)).

(** [validateFileStats]. *)
Definition validateFileStats (now : Z) (fi : FileInfo.t) (maxAge : Z)
  : option error :=
  if FileInfo.IsDir fi then Some (OtherError "cache file is a directory")
  else if bool_decide (FileInfo.Size fi = 0%Z) then
    Some (OtherError "empty cache file")
  else if bool_decide (maxAge < Since now (FileInfo.ModTime fi))%Z then
    Some (OtherError "cache expired")
  else None.

(** [checkCacheFile]; [stat] is [os.Stat] on the file system of the
    machine. *)
Definition checkCacheFile (stat : string → FileInfo.t + error) (now : Z)
    (filename : string) (maxAge : Z) : option error :=
  if bool_decide (filename = "") then Some (OtherError "no cache filename")
  else match stat filename with
       | inr err => Some err
       | inl fi => validateFileStats now fi maxAge
       end.

(** [http.Cookie], with the fields a cookie file stores. *)
Module Cookie.
Record t : Type := mk {
  Name : string;
  Value : string;
  Path : string;
  Domain : string;
  Secure : bool
}.
End Cookie.

#[global] Instance cookie_eq_dec : EqDecision Cookie.t.
Proof. solve_decision. Defined.

(** The zero value [http.Cookie{}]. *)
Definition Cookie_zero : Cookie.t := Cookie.mk "" "" "" "" false.

(** A [*http.Cookie]: [None] is the nil pointer.  No function writes
    through such a pointer, so a pointer is the cookie it points to. *)
Abbreviation CookiePtr := (option Cookie.t).

(** [toPtrCookies] of package [slackdump]: a slice of nil pointers of
    the length of [cc], filled index by index with the addresses of the
    elements. *)
Definition toPtrCookies (cc : list Cookie.t) : list CookiePtr :=
  foldl (λ ret i,
           match cc !! i with
           | Some c => <[i := Some c]> ret
           | None => ret
           end)
        (replicate (length cc) None) (seq 0 (length cc)).

(** [deRefCookies] of package [auth]: a slice of zero cookies of the
    length of [cc], filled index by index with the cookies pointed to.
    Reading through a nil pointer panics: the result is [None]. *)
Definition deRefCookies (cc : list CookiePtr) : option (list Cookie.t) :=
  foldl (λ acc i,
           match acc, cc !! i with
           | Some ret, Some (Some c) => Some (<[i := c]> ret)
           | _, _ => None
           end)
        (Some (replicate (length cc) Cookie_zero)) (seq 0 (length cc)).

(** [auth.simpleProvider] and [auth.CookieFileAuth], which embeds it. *)
Record simpleProvider : Type := mkSimpleProvider {
  token : string;
  cookies : list Cookie.t
}.

Record CookieFileAuth : Type := mkCookieFileAuth {
  provider : simpleProvider
}.

(** The zero value [CookieFileAuth{}]. *)
Definition CookieFileAuth_zero : CookieFileAuth :=
  mkCookieFileAuth (mkSimpleProvider "" []).

(** [NewCookieFileAuth].  The sentinel [ErrNoToken] of package [auth]
    and the parser of the cookie file, [cookiemonster.ParseFile], are
    arguments.  The result is [None] when the function panics. *)
Definition NewCookieFileAuth (ErrNoToken : error)
    (ParseFile : string → list CookiePtr * option error)
    (token cookieFile : string) : option (CookieFileAuth * option error) :=
  if bool_decide (token = "") then Some (CookieFileAuth_zero, Some ErrNoToken)
  else
    let '(ptrCookies, err) := ParseFile cookieFile in
    match err with
    | Some e => Some (CookieFileAuth_zero, Some e)
    | None =>
        match deRefCookies ptrCookies with
        | None => None
        | Some cc =>
            Some (mkCookieFileAuth (mkSimpleProvider token cc), None)
        end
    end.

(** Whether a path has a separator. *)
Fixpoint hasSeparator (path : string) : bool :=
  match path with
  | EmptyString => false
  | String c rest =>
      if decide (c = Ascii.ascii_of_nat 47) then true else hasSeparator rest
  end.

(** The files [saveChannel] writes for a grouping under the directory
    of a channel. *)
Definition dateFiles (se : Export) (channelName : string)
    (msgs : messagesByDate) : list string :=
  (λ d, Join (basedir se channelName) (d +:+ ".json"))
    <$> (fst <$> map_to_list msgs).

(** ** More sample data *)

Module Probe.

(** System calls as in [Sample.env], except that the encoder fails on
    the file of 18 February. *)
Definition envDiskFull : Env :=
  mkEnv (λ _, None)
    (λ f, if decide (f = "out/general/2022-02-18.json")
          then Some (OtherError "no space left on device") else None)
    (λ _, None) (λ _, None)
    (λ m, Some (String.substring 0 10 (Message.Timestamp m))).

(** System calls as in [Sample.env], except that the backup of the
    channel list cannot be created. *)
Definition envNoBackup : Env :=
  mkEnv (λ f, if decide (f = "out/channels_full.json.bak")
              then Some (OtherError "permission denied") else None)
    (λ _, None) (λ _, None) (λ _, None)
    (λ m, Some (String.substring 0 10 (Message.Timestamp m))).

(** The users cannot be fetched. *)
Definition workspaceNoUsers : SlackDumper :=
  mkSlackDumper ([], Some (OtherError "invalid_auth"))
    (λ _, ([Sample.general; Sample.direct], None))
    (λ _ _ _, ([[Sample.m1]], None)).

Definition exportNoUsers : Export :=
  mkExport "out" workspaceNoUsers Sample.window.

(** A state in which an earlier export left a file. *)
Definition used : State :=
  mkState {[ "out/general/2022-02-17.json" := DocMessages [Sample.m4] ]}
    {[ "out/general" ]} Downloader_New [].

Definition session : Cookie.t := Cookie.mk "d" "xoxd-1" "/" ".slack.com" true.
Definition locale : Cookie.t := Cookie.mk "lc" "en" "/" ".slack.com" false.

(** A parser that knows one cookie file. *)
Definition parse (cookieFile : string) : list CookiePtr * option error :=
  if decide (cookieFile = "cookies.txt") then ([Some session; Some locale], None)
  else ([], Some (OtherError "no such file")).

(** A cache file written one hour before the clock reading
    [1700000000] seconds, and the directory it lives in. *)
Definition stat (filename : string) : FileInfo.t + error :=
  if decide (filename = "users.cache") then
    inl (FileInfo.mk false 2048 (1699996400 * 10 ^ 9))
  else if decide (filename = "cache") then
    inl (FileInfo.mk true 4096 (1699996400 * 10 ^ 9))
  else inr (OtherError "no such file or directory").

Definition clock : Z := 1700000000 * 10 ^ 9.
Definition hour : Z := 3600 * 10 ^ 9.

End Probe.

(** * Properties *)

(** ** The compatibility filter *)

Lemma filterStep_foldl chans acc :
  (foldl filterStep acc chans).1 = acc.1 ++ filter fullyNamed chans.
Proof.
  revert acc. induction chans as [|c chans IH]; intros acc; simpl.
  - by rewrite app_nil_r.
  - rewrite IH, filter_cons. unfold filterStep.
    destruct (decide (fullyNamed c)) as [[Hn Hnn]|Hno].
    + rewrite !bool_decide_eq_true_2 by done. simpl. by rewrite <- app_assoc.
    + destruct (bool_decide (Channel.Name c ≠ "")) eqn:E1;
        destruct (bool_decide (Channel.NameNormalized c ≠ "")) eqn:E2;
        simpl; try done.
      apply bool_decide_eq_true in E1. apply bool_decide_eq_true in E2.
      by destruct Hno.
Qed.

Lemma filterOutStrangeChannels_filter chans :
  (filterOutStrangeChannels chans).1 = filter fullyNamed chans.
Proof. unfold filterOutStrangeChannels. by rewrite filterStep_foldl. Qed.

(** C9: filtering a filtered list changes nothing. *)
Theorem filterOutStrangeChannels_idempotent (chans : list Channel.t) :
  (filterOutStrangeChannels (filterOutStrangeChannels chans).1).1
  = (filterOutStrangeChannels chans).1.
Proof.
  rewrite !filterOutStrangeChannels_filter.
  apply list_filter_filter_r. done.
Qed.

(** ** Name resolution *)

(** C3: [validName] is a function of the channel and the user index
    alone: a non-empty [NameNormalized] is the name, whatever [IsIM]
    says; without it a direct-message channel is named after its peer,
    by user name when the index knows the peer and by raw ID otherwise;
    without it any other channel is the unknown-entity error and no
    name. *)
Theorem validName_cases (ch : Channel.t) (uidx : userIndex) :
  (Channel.NameNormalized ch ≠ "" →
     validName ch uidx = (Channel.NameNormalized ch, None, []))
  ∧ (Channel.NameNormalized ch = "" → Channel.IsIM ch = true →
     ∀ user, uidx !! Channel.User ch = Some user →
       validName ch uidx = ("IM-" +:+ User.Name user, None, []))
  ∧ (Channel.NameNormalized ch = "" → Channel.IsIM ch = true →
     uidx !! Channel.User ch = None →
       validName ch uidx
       = ("IM-" +:+ Channel.User ch, None, [TraceUserNotFound (Channel.User ch)]))
  ∧ (Channel.NameNormalized ch = "" → Channel.IsIM ch = false →
       validName ch uidx = ("", Some errUnknownEntity, [TraceUnsupported ch])).
Proof.
  unfold validName. split_and!.
  - intros H. by rewrite bool_decide_eq_true_2.
  - intros H Him user Hu. rewrite bool_decide_eq_false_2 by (by intros []).
    by rewrite Him, Hu.
  - intros H Him Hu. rewrite bool_decide_eq_false_2 by (by intros []).
    by rewrite Him, Hu.
  - intros H Him. rewrite bool_decide_eq_false_2 by (by intros []).
    by rewrite Him.
Qed.

Lemma validName_cases_witness :
  validName Sample.general (IndexByID [Sample.alice; Sample.bob])
    = ("general", None, [])
  ∧ validName Sample.direct (IndexByID [Sample.alice; Sample.bob])
    = ("IM-bob", None, [])
  ∧ validName Sample.stranger (IndexByID [Sample.alice; Sample.bob])
    = ("IM-U9", None, [TraceUserNotFound "U9"])
  ∧ validName Sample.nameless (IndexByID [Sample.alice; Sample.bob])
    = ("", Some errUnknownEntity, [TraceUnsupported Sample.nameless]).
Proof.
  pose proof (validName_cases Sample.general (IndexByID [Sample.alice; Sample.bob]))
    as (H1 & _).
  pose proof (validName_cases Sample.direct (IndexByID [Sample.alice; Sample.bob]))
    as (_ & H2 & _).
  pose proof (validName_cases Sample.stranger (IndexByID [Sample.alice; Sample.bob]))
    as (_ & _ & H3 & _).
  pose proof (validName_cases Sample.nameless (IndexByID [Sample.alice; Sample.bob]))
    as (_ & _ & _ & H4).
  split_and!.
  - apply H1. discriminate.
  - apply (H2 eq_refl eq_refl Sample.bob). vm_compute. reflexivity.
  - apply (H3 eq_refl eq_refl). vm_compute. reflexivity.
  - apply (H4 eq_refl eq_refl).
Defined.

(** ** Attachments *)

Section Attachments.

Variable env : Env.

Lemma downloadLoop_not_started dir n fs s :
  started (dl s) = false →
  downloadLoop env dir n fs s
  = (s, (mkProcessResult "files" (match fs with [] => n | _ => 0 end), None)).
Proof.
  intros Hoff. destruct fs as [|f rest]; simpl; [done|].
  unfold DownloadFile. by rewrite Hoff.
Qed.

Lemma downloadLoop_first_failure dir n pre f post e s :
  started (dl s) = true →
  Forall (λ g, fetchFails env g = None) pre →
  fetchFails env f = Some e →
  errors_Is e ErrNotStarted = false →
  (downloadLoop env dir n (pre ++ f :: post) s).2 = (ProcessResult_zero, Some e).
Proof.
  intros Hon Hpre Hf He. revert s Hon.
  induction Hpre as [|g pre Hg _ IH]; intros s Hon; simpl.
  - unfold DownloadFile. by rewrite Hon, Hf, He.
  - unfold DownloadFile. rewrite Hon, Hg. by apply IH.
Qed.

Lemma downloadFn_nil se channelName channelID s :
  downloadFn env se channelName [] channelID s
  = (s, (mkProcessResult "files" 0, None)).
Proof. reflexivity. Qed.

End Attachments.

(** C7: with a downloader that is not started, the process function
    of every batch succeeds and reports zero files; the first download
    error that is not the not-started condition is returned to the
    caller. *)
Theorem downloadFn_not_started_or_error (env : Env) (se : Export)
    (channelName channelID : string) (msg : list Message.t) (s : State) :
  (started (dl s) = false →
     downloadFn env se channelName msg channelID s
     = (s, (mkProcessResult "files" 0, None)))
  ∧ (∀ pre f post e,
       started (dl s) = true →
       ExtractFiles msg = pre ++ f :: post →
       Forall (λ g, fetchFails env g = None) pre →
       fetchFails env f = Some e →
       errors_Is e ErrNotStarted = false →
       (downloadFn env se channelName msg channelID s).2
       = (ProcessResult_zero, Some e)).
Proof.
  split.
  - intros Hoff. unfold downloadFn.
    rewrite downloadLoop_not_started by done.
    by destruct (ExtractFiles msg).
  - intros pre f post e Hon Hfs Hpre Hf He. unfold downloadFn.
    rewrite Hfs. by apply downloadLoop_first_failure.
Qed.

Lemma downloadFn_not_started_or_error_witness :
  downloadFn Sample.env Sample.export "general" [Sample.m2; Sample.m3] "C01"
    Sample.empty
  = (Sample.empty, (mkProcessResult "files" 0, None))
  ∧ (downloadFn Sample.envOffline Sample.export "general"
       [Sample.m2; Sample.m3] "C01" (Start Sample.empty)).2
    = (ProcessResult_zero, Some (OtherError "404 not found")).
Proof.
  split.
  - apply (downloadFn_not_started_or_error Sample.env Sample.export
             "general" "C01" [Sample.m2; Sample.m3] Sample.empty).
    reflexivity.
  - apply (downloadFn_not_started_or_error Sample.envOffline Sample.export
             "general" "C01" [Sample.m2; Sample.m3] (Start Sample.empty))
      with (pre := [Sample.photo]) (f := Sample.notes) (post := []).
    + reflexivity.
    + reflexivity.
    + repeat constructor.
    + reflexivity.
    + reflexivity.
Defined.

(** ** Channels without messages *)

Section EmptyHistory.

Variable env : Env.

Lemma dumpPages_messages pages channelID processFn acc s s1 ms :
  dumpPages pages channelID processFn acc s = (s1, (ms, None)) →
  ms = acc ++ mjoin pages.
Proof.
  revert acc s. induction pages as [|page rest IH]; intros acc s; simpl.
  - intros [= _ <-]. by rewrite app_nil_r.
  - destruct (processFn page channelID s) as [s' [r [e|]]]; [done|].
    intros H%IH. by rewrite H, <- app_assoc.
Qed.

Lemma dumpPages_empty_pages se channelName pages channelID acc s :
  mjoin pages = [] →
  dumpPages pages channelID (downloadFn env se channelName) acc s
  = (s, (acc, None)).
Proof.
  revert acc. induction pages as [|page rest IH]; intros acc; simpl; [done|].
  intros [-> Hrest]%app_eq_nil. rewrite downloadFn_nil, app_nil_r. by apply IH.
Qed.

(** A dump that succeeds without a message leaves the state as it was. *)
Lemma DumpMessagesRaw_no_messages se channelName channelID oldest latest s :
  let r := DumpMessagesRaw (dumper se) channelID oldest latest
             (downloadFn env se channelName) s in
  r.2.2 = None → Messages r.2.1 = [] →
  r = (s, (mkConversation [], None)).
Proof.
  unfold DumpMessagesRaw.
  destruct (remoteHistory (dumper se) channelID oldest latest) as [pages rerr].
  destruct (dumpPages pages channelID (downloadFn env se channelName) [] s)
    as [s1 [ms [e|]]] eqn:Hdump; simpl; [done|].
  destruct rerr as [e|]; simpl; [done|]. intros _ Hms. subst ms.
  apply dumpPages_messages in Hdump as Hpages. simpl in Hpages.
  rewrite dumpPages_empty_pages in Hdump by done. by simplify_eq.
Qed.

Lemma exportConversation_no_messages se ch users s :
  let r := DumpMessagesRaw (dumper se) (Channel.ID ch) (Oldest (opts se))
             (Latest (opts se)) (downloadFn env se (Channel.Name ch)) s in
  r.2.2 = None → Messages r.2.1 = [] →
  exportConversation env se ch users s = (s, None).
Proof.
  intros r Herr Hms. unfold exportConversation.
  pose proof (DumpMessagesRaw_no_messages se (Channel.Name ch) (Channel.ID ch)
                (Oldest (opts se)) (Latest (opts se)) s Herr Hms) as Hr.
  simpl in Hr. by rewrite Hr.
Qed.

End EmptyHistory.

(** C8: when the dump of a channel's history succeeds with zero
    messages, [exportConversation] succeeds and leaves the whole state
    as it found it: no directory, no file, and no event of name
    resolution. *)
Theorem exportConversation_empty_writes_nothing (env : Env) (se : Export)
    (ch : Channel.t) (users : Users) (s : State) :
  (DumpMessagesRaw (dumper se) (Channel.ID ch) (Oldest (opts se))
     (Latest (opts se)) (downloadFn env se (Channel.Name ch)) s).2.2 = None →
  Messages (DumpMessagesRaw (dumper se) (Channel.ID ch) (Oldest (opts se))
     (Latest (opts se)) (downloadFn env se (Channel.Name ch)) s).2.1 = [] →
  exportConversation env se ch users s = (s, None).
Proof. apply exportConversation_no_messages. Qed.

Lemma exportConversation_empty_writes_nothing_witness :
  exportConversation Sample.env Sample.exportSilent Sample.nameless
    [Sample.alice; Sample.bob] (Start Sample.empty)
  = (Start Sample.empty, None).
Proof.
  apply (exportConversation_empty_writes_nothing Sample.env Sample.exportSilent
           Sample.nameless [Sample.alice; Sample.bob] (Start Sample.empty)).
  - reflexivity.
  - reflexivity.
Defined.

(** ** The retry policy *)

Section Retry.

Context {Σ : Type}.
Variable fn : Σ → Σ * option error.

Lemma counted_fst σ c : (counted fn (σ, c)).1 = ((fn σ).1, S c).
Proof. unfold counted. simpl. by destruct (fn σ). Qed.

Lemma counted_snd σ c : (counted fn (σ, c)).2 = (fn σ).2.
Proof. unfold counted. simpl. by destruct (fn σ). Qed.

Lemma retryLoop_step n σ c e :
  (fn σ).2 = Some e → isRateLimited e = true →
  retryLoop (S n) (counted fn) (σ, c)
  = retryLoop n (counted fn) ((fn σ).1, S c).
Proof.
  intros He Hrl. simpl.
  pose proof (counted_fst σ c) as H1. pose proof (counted_snd σ c) as H2.
  destruct (counted fn (σ, c)) as [σ1 err]. simpl in H1, H2.
  by rewrite H1, H2, He, Hrl.
Qed.

Lemma retryLoop_succeeds n σ c k :
  rateLimitedThen fn σ k None → (k < n)%nat →
  retryLoop n (counted fn) (σ, c)
  = ((afterCalls fn σ (S k), c + S k), None).
Proof.
  revert n σ c. induction k as [|k IH]; intros n σ c Hk Hlt;
    (destruct n as [|n]; [lia|]).
  - simpl in Hk. simpl.
    pose proof (counted_fst σ c) as H1. pose proof (counted_snd σ c) as H2.
    destruct (counted fn (σ, c)) as [σ1 err]. simpl in H1, H2.
    rewrite H1, H2, Hk. do 2 f_equal. lia.
  - destruct Hk as [(e & He & Hrl) Hk].
    rewrite (retryLoop_step n σ c e He Hrl), (IH n) by (done || lia).
    simpl. do 2 f_equal. lia.
Qed.

Lemma retryLoop_propagates n σ c k e :
  rateLimitedThen fn σ k (Some e) → isRateLimited e = false → (k < n)%nat →
  retryLoop n (counted fn) (σ, c)
  = ((afterCalls fn σ (S k), c + S k), Some (WithStack e)).
Proof.
  revert n σ c. induction k as [|k IH]; intros n σ c Hk Hno Hlt;
    (destruct n as [|n]; [lia|]).
  - simpl in Hk. simpl.
    pose proof (counted_fst σ c) as H1. pose proof (counted_snd σ c) as H2.
    destruct (counted fn (σ, c)) as [σ1 err]. simpl in H1, H2.
    rewrite H1, H2, Hk, Hno. do 2 f_equal. lia.
  - destruct Hk as [(e' & He & Hrl) Hk].
    rewrite (retryLoop_step n σ c e' He Hrl), (IH n) by (done || lia).
    simpl. do 2 f_equal. lia.
Qed.

Lemma retryLoop_exhausted n σ c k r :
  rateLimitedThen fn σ k r → (n ≤ k)%nat →
  retryLoop n (counted fn) (σ, c)
  = ((afterCalls fn σ n, c + n), Some ErrRetryExhausted).
Proof.
  revert σ c k. induction n as [|n IH]; intros σ c k Hk Hle.
  - simpl. do 2 f_equal. lia.
  - destruct k as [|k]; [lia|]. destruct Hk as [(e & He & Hrl) Hk].
    rewrite (retryLoop_step n σ c e He Hrl), (IH _ _ k) by (done || lia).
    simpl. do 2 f_equal. lia.
Qed.

End Retry.

(** C5: a callback that is rate-limited exactly [k] times and then
    succeeds is run [k + 1] times and the call succeeds when the bound
    allows [k + 1] attempts; with a bound of [k] or less the call ends
    with the retry-exhausted error; an error that is not a rate-limit
    signal is returned by the attempt that met it, with no attempt
    after it. *)
Theorem withRetry_bounded_attempts {Σ : Type} (fn : Σ → Σ * option error)
    (σ : Σ) (k : nat) (m : Z) :
  (failsThenSucceeds fn σ k → (Z.of_nat k + 1 ≤ m)%Z →
     withRetry m (counted fn) (σ, 0)
     = ((afterCalls fn σ (k + 1), k + 1), None))
  ∧ (failsThenSucceeds fn σ k → (m ≤ Z.of_nat k)%Z →
     (withRetry m (counted fn) (σ, 0)).2 = Some ErrRetryExhausted)
  ∧ (∀ e, rateLimitedThen fn σ k (Some e) → isRateLimited e = false →
     (Z.of_nat k + 1 ≤ m)%Z →
     withRetry m (counted fn) (σ, 0)
     = ((afterCalls fn σ (k + 1), k + 1), Some (WithStack e))).
Proof.
  unfold withRetry, WithRetry, failsThenSucceeds. split_and!.
  - intros Hk Hm. rewrite (retryLoop_succeeds fn _ σ 0 k Hk) by lia.
    by rewrite Nat.add_1_r.
  - intros Hk Hm. by rewrite (retryLoop_exhausted fn _ σ 0 k None Hk) by lia.
  - intros e Hk Hno Hm. rewrite (retryLoop_propagates fn _ σ 0 k e Hk Hno) by lia.
    by rewrite Nat.add_1_r.
Qed.

Lemma withRetry_bounded_attempts_witness :
  withRetry 3 (counted Sample.flaky) (0, 0) = ((3, 3), None)
  ∧ (withRetry 2 (counted Sample.flaky) (0, 0)).2 = Some ErrRetryExhausted
  ∧ withRetry 5 (counted Sample.doomed) (0, 0)
    = ((2, 2), Some (WithStack (OtherError "invalid_auth"))).
Proof.
  split_and!.
  - apply (withRetry_bounded_attempts Sample.flaky 0 2 3).
    + repeat split; eexists; split; reflexivity.
    + lia.
  - apply (withRetry_bounded_attempts Sample.flaky 0 2 2).
    + repeat split; eexists; split; reflexivity.
    + lia.
  - apply (withRetry_bounded_attempts Sample.doomed 0 1 5).
    + repeat split; eexists; split; reflexivity.
    + reflexivity.
    + lia.
Defined.

(** ** Files per date *)

Lemma string_length_app (a b : string) :
  String.length (a +:+ b) = (String.length a + String.length b)%nat.
Proof. induction a as [|c a IH]; simpl; [done|by rewrite IH]. Qed.

Lemma string_app_inv_tail (a b x : string) : a +:+ x = b +:+ x → a = b.
Proof.
  revert b. induction a as [|c a IH]; intros [|c' b] H; simpl in H.
  - done.
  - apply (f_equal String.length) in H.
    rewrite ?string_length_app in H. simpl in H.
    rewrite ?string_length_app in H. lia.
  - apply (f_equal String.length) in H.
    rewrite ?string_length_app in H. simpl in H.
    rewrite ?string_length_app in H. lia.
  - injection H as -> H. f_equal. by apply IH.
Qed.

Lemma Join_nonempty_r (a b : string) :
  b ≠ "" → Join a b = if decide (a = "") then b else a +:+ "/" +:+ b.
Proof. intros Hb. unfold Join. by rewrite (decide_False (P := b = "")). Qed.

(** Two dates never share a file. *)
Lemma datePath_inj (basedir d1 d2 : string) :
  Join basedir (d1 +:+ ".json") = Join basedir (d2 +:+ ".json") → d1 = d2.
Proof.
  assert (Hne : ∀ d, d +:+ ".json" ≠ "").
  { intros d H. apply (f_equal String.length) in H.
    rewrite string_length_app in H. simpl in H. lia. }
  rewrite !Join_nonempty_r by done.
  destruct (decide (basedir = "")); intros H.
  - by apply string_app_inv_tail in H.
  - apply (inj (String.app basedir)), (inj (String.app "/")) in H.
    by apply string_app_inv_tail in H.
Qed.

Lemma mjoin_cons {A : Type} (l : list A) (ls : list (list A)) :
  mjoin (l :: ls) = l ++ mjoin ls.
Proof. reflexivity. Qed.

Section DateFiles.

Variable env : Env.

Lemma serializeToFile_ok filename data s s' :
  serializeToFile env filename data s = (s', None) →
  s' = setFiles <[filename := data]> s.
Proof.
  unfold serializeToFile, serialize.
  destruct (createFails env filename); [done|].
  destruct (encodeFails env filename); [done|].
  intros [= <-]. unfold setFiles; simpl. by rewrite insert_insert_eq.
Qed.

(** A file outside the dates of the entries is not touched, whether
    the loop succeeds or not. *)
Lemma saveFiles_other basedir entries s p :
  p ∉ (λ d, Join basedir (d +:+ ".json")) <$> (fst <$> entries) →
  files (saveFiles env basedir entries s).1 !! p = files s !! p.
Proof.
  revert s. induction entries as [|[d ms] rest IH]; intros s Hp; [done|].
  rewrite !fmap_cons, not_elem_of_cons in Hp. destruct Hp as [Hne Hp].
  simpl in Hne. simpl. unfold serializeToFile, serialize.
  destruct (createFails env _); [done|].
  destruct (encodeFails env _); simpl.
  - by rewrite lookup_insert_ne.
  - rewrite IH by done. simpl. by rewrite !lookup_insert_ne.
Qed.

(** After a successful loop every entry is in the file of its date. *)
Lemma saveFiles_written basedir entries s s' d ms :
  saveFiles env basedir entries s = (s', None) →
  NoDup (fst <$> entries) →
  (d, ms) ∈ entries →
  files s' !! Join basedir (d +:+ ".json") = Some (DocMessages ms).
Proof.
  revert s. induction entries as [|[d0 ms0] rest IH]; intros s Hsave Hnd Hin.
  - by apply elem_of_nil in Hin.
  - rewrite fmap_cons, NoDup_cons in Hnd. destruct Hnd as [Hfresh Hnd].
    simpl in Hsave, Hfresh.
    destruct (serializeToFile env _ _ s) as [s1 [e|]] eqn:Hw; [done|].
    apply serializeToFile_ok in Hw.
    apply elem_of_cons in Hin as [[= -> ->]|Hin].
    + replace s' with (saveFiles env basedir rest s1).1 by (by rewrite Hsave).
      rewrite saveFiles_other.
      * subst s1. simpl. by rewrite lookup_insert_eq.
      * rewrite list_elem_of_fmap. intros (d' & Heq & Hd').
        apply datePath_inj in Heq. by subst d'.
    + by apply (IH s1).
Qed.

(** Grouping neither loses nor repeats a message. *)
Lemma groupByDate_bucketed ms acc msgs :
  groupByDate env ms acc = (msgs, None) →
  bucketed msgs ≡ₚ bucketed acc ++ ms.
Proof.
  revert acc. induction ms as [|m rest IH]; intros acc; simpl.
  - intros [= <-]. by rewrite app_nil_r.
  - destruct (dateOf env m) as [d|]; [|done]. intros ->%IH.
    rewrite (cons_middle m (bucketed acc) rest), app_assoc. f_equiv.
    unfold bucketed. destruct (acc !! d) as [old|] eqn:Hd; simpl.
    + rewrite <- insert_delete_eq.
      rewrite map_to_list_insert by apply lookup_delete_eq.
      rewrite <- (map_to_list_delete acc d old Hd).
      rewrite !fmap_cons, !mjoin_cons. cbn [snd].
      rewrite <- !app_assoc. apply Permutation_app_head, Permutation_app_comm.
    + rewrite map_to_list_insert by done.
      rewrite fmap_cons, mjoin_cons. cbn [snd app].
      apply Permutation_cons_append.
Qed.

(** Every message sits in the bucket of its own date. *)
Lemma groupByDate_dated ms acc msgs :
  groupByDate env ms acc = (msgs, None) →
  (∀ d b m, acc !! d = Some b → m ∈ b → dateOf env m = Some d) →
  ∀ d b m, msgs !! d = Some b → m ∈ b → dateOf env m = Some d.
Proof.
  revert acc. induction ms as [|m0 rest IH]; intros acc; simpl.
  - by intros [= <-].
  - destruct (dateOf env m0) as [d0|] eqn:Hd0; [|done]. intros Hg Hacc.
    apply (IH _ Hg). intros d b m Hb Hm.
    destruct (decide (d0 = d)) as [->|Hne].
    + rewrite lookup_insert_eq in Hb. injection Hb as <-.
      apply elem_of_app in Hm as [Hm|Hm].
      * destruct (acc !! d) as [old|] eqn:Hold; simpl in Hm.
        -- by apply (Hacc d old).
        -- by apply elem_of_nil in Hm.
      * apply list_elem_of_singleton in Hm. by subst m.
    + rewrite lookup_insert_ne in Hb by done. by apply (Hacc d b).
Qed.

End DateFiles.

(** Grouping followed by a successful [saveChannel]. *)
Lemma saveChannel_buckets (env : Env) (se : Export)
    (channelName : string) (conv : Conversation) (users : Users)
    (msgs : messagesByDate) (s s' : State) :
  byDate env conv users = (msgs, None) →
  saveChannel env se channelName msgs s = (s', None) →
  let path := λ d, Join (basedir se channelName) (d +:+ ".json") in
  let dates := fst <$> map_to_list msgs in
  NoDup (path <$> dates)
  ∧ mjoin ((λ d, fileMessages s' (path d)) <$> dates) ≡ₚ Messages conv
  ∧ (∀ d b, msgs !! d = Some b →
       files s' !! path d = Some (DocMessages b)
       ∧ ∀ m, m ∈ b → dateOf env m = Some d)
  ∧ (∀ p, p ∉ path <$> dates → files s' !! p = files s !! p).
Proof.
  intros Hgroup Hsave path dates. unfold byDate in Hgroup.
  unfold saveChannel in Hsave.
  destruct (mkdirFails env (basedir se channelName)); [done|].
  fold (basedir se channelName) in Hsave.
  assert (Hwritten : ∀ d b, msgs !! d = Some b →
            files s' !! path d = Some (DocMessages b)).
  { intros d b Hb. eapply saveFiles_written; [done| |].
    - apply NoDup_fst_map_to_list.
    - by apply elem_of_map_to_list. }
  split_and!.
  - apply NoDup_fmap_2_strong; [|apply NoDup_fst_map_to_list].
    intros d1 d2 _ _. apply datePath_inj.
  - assert (Hfiles : (λ d, fileMessages s' (path d)) <$> dates
                     = snd <$> map_to_list msgs).
    { unfold dates. rewrite <- list_fmap_compose.
      apply list_fmap_ext. intros i [d b] Hi. simpl.
      unfold fileMessages. rewrite (Hwritten d b); [done|].
      apply elem_of_map_to_list, list_elem_of_lookup. by exists i. }
    rewrite Hfiles. apply groupByDate_bucketed in Hgroup.
    unfold bucketed in Hgroup. by rewrite Hgroup, map_to_list_empty.
  - intros d b Hb. split; [by apply Hwritten|].
    intros m Hm. eapply groupByDate_dated; [exact Hgroup| |exact Hb|exact Hm].
    intros d' b' m'. by rewrite lookup_empty.
  - intros p Hp.
    replace s' with (saveFiles env (basedir se channelName) (map_to_list msgs)
                       (setDirs (λ d, {[basedir se channelName]} ∪ d) s)).1
      by (by rewrite Hsave).
    by rewrite saveFiles_other.
Qed.

(** The dump of a history hands attachments to the downloader and
    writes no file itself. *)
Lemma files_downloadLoop env dir n fs s :
  files (downloadLoop env dir n fs s).1 = files s.
Proof.
  revert s. induction fs as [|f rest IH]; intros s; simpl; [done|].
  unfold DownloadFile. destruct (started (dl s)); simpl; [|done].
  destruct (fetchFails env f) as [e|].
  - by destruct (errors_Is e ErrNotStarted).
  - by rewrite IH.
Qed.

Lemma files_dumpPages env se channelName pages channelID acc s :
  files (dumpPages pages channelID (downloadFn env se channelName) acc s).1
  = files s.
Proof.
  revert acc s. induction pages as [|page rest IH]; intros acc s; simpl; [done|].
  pose proof (files_downloadLoop env
                (Join (basedir se channelName) "attachments")
                (length (ExtractFiles page)) (ExtractFiles page) s) as Hp.
  unfold downloadFn.
  destruct (downloadLoop env _ _ _ s) as [s1 [r [e|]]]; simpl in *; [done|].
  by rewrite IH.
Qed.

Lemma files_DumpMessagesRaw env se channelName channelID oldest latest s :
  files (DumpMessagesRaw (dumper se) channelID oldest latest
           (downloadFn env se channelName) s).1
  = files s.
Proof.
  unfold DumpMessagesRaw.
  destruct (remoteHistory (dumper se) channelID oldest latest) as [pages rerr].
  pose proof (files_dumpPages env se channelName pages channelID [] s) as Hp.
  destruct (dumpPages pages channelID _ [] s) as [s1 [ms [e|]]];
    simpl in *; [done|].
  by destruct rerr.
Qed.

(** C4: when the export of a channel with messages succeeds, the
    messages were grouped by date and every date has a file of its own
    under the directory of the channel, holding the bucket of that
    date; every message of a bucket carries the date of the bucket; the
    messages of all these files taken together are the fetched
    messages, each one once; and no other file has changed. *)
Theorem exportConversation_partitions_by_date (env : Env) (se : Export)
    (ch : Channel.t) (users : Users) (conv : Conversation) (s s1 s' : State) :
  DumpMessagesRaw (dumper se) (Channel.ID ch) (Oldest (opts se))
    (Latest (opts se)) (downloadFn env se (Channel.Name ch)) s
  = (s1, (conv, None)) →
  Messages conv ≠ [] →
  exportConversation env se ch users s = (s', None) →
  let name := (validName ch (IndexByID users)).1.1 in
  let msgs := (byDate env conv users).1 in
  let path := λ d, Join (basedir se name) (d +:+ ".json") in
  let dates := fst <$> map_to_list msgs in
  NoDup (path <$> dates)
  ∧ mjoin ((λ d, fileMessages s' (path d)) <$> dates) ≡ₚ Messages conv
  ∧ (∀ d b, msgs !! d = Some b →
       files s' !! path d = Some (DocMessages b)
       ∧ ∀ m, m ∈ b → dateOf env m = Some d)
  ∧ (∀ p, p ∉ path <$> dates → files s' !! p = files s !! p).
Proof.
  intros Hdump Hms Hexp. unfold exportConversation in Hexp.
  pose proof (files_DumpMessagesRaw env se (Channel.Name ch) (Channel.ID ch)
                (Oldest (opts se)) (Latest (opts se)) s) as Hframe.
  rewrite Hdump in Hexp, Hframe. simpl in Hframe.
  rewrite bool_decide_eq_false_2 in Hexp.
  2:{ intros Hlen. by apply nil_length_inv in Hlen. }
  destruct (byDate env conv users) as [msgs [e|]] eqn:Hgroup; [done|].
  destruct (validName ch (IndexByID users)) as [[name [e|]] traced]; [done|].
  simpl. rewrite <- Hframe.
  apply (saveChannel_buckets env se name conv users msgs (emit traced s1) s'
           Hgroup Hexp).
Qed.

Lemma exportConversation_partitions_by_date_witness :
  let s' := (exportConversation Sample.env Sample.export Sample.general
               [Sample.alice; Sample.bob] (Start Sample.empty)).1 in
  mjoin ((λ d, fileMessages s' (Join "out/general" (d +:+ ".json")))
           <$> ["2022-02-17"; "2022-02-18"])
  ≡ₚ [Sample.m1; Sample.m2; Sample.m3].
Proof.
  intros s'.
  pose (r := DumpMessagesRaw Sample.workspace "C01" 0 2000000000
               (downloadFn Sample.env Sample.export "general")
               (Start Sample.empty)).
  refine (proj1 (proj2 (exportConversation_partitions_by_date Sample.env
            Sample.export Sample.general [Sample.alice; Sample.bob]
            r.2.1 (Start Sample.empty) r.1 s' _ _ _))).
  - vm_compute. reflexivity.
  - vm_compute. discriminate.
  - vm_compute. reflexivity.
Defined.

(** ** Streaming the channels *)

Section Stream.

Variable env : Env.

Lemma streamLoop_app {Σ : Type} (cb : Channel.t → Σ → Σ * option error)
    pre rest σ :
  streamLoop cb (pre ++ rest) σ
  = match streamLoop cb pre σ with
    | (σ1, None) => streamLoop cb rest σ1
    | (σ1, Some e) => (σ1, Some e)
    end.
Proof.
  revert σ. induction pre as [|ch pre IH]; intros σ; simpl; [done|].
  destruct (cb ch σ) as [σ1 [e|]]; [done|]. apply IH.
Qed.

(** A stream that ends well has appended every channel it met. *)
Lemma streamLoop_collects se users chans s acc s1 acc1 :
  streamLoop (messagesCallback env se users) chans (s, acc) = ((s1, acc1), None) →
  acc1 = acc ++ chans.
Proof.
  revert s acc. induction chans as [|ch chans IH]; intros s acc; simpl.
  - intros [= _ <-]. by rewrite app_nil_r.
  - destruct (exportConversation env se ch users s) as [s' [e|]]; [done|].
    intros ->%IH. by rewrite <- app_assoc.
Qed.

Lemma messagesCallback_appends se users ch s chans :
  (exportConversation env se ch users s).2 = None →
  messagesCallback env se users ch (s, chans)
  = (((exportConversation env se ch users s).1, chans ++ [ch]), None).
Proof.
  unfold messagesCallback.
  destruct (exportConversation env se ch users s) as [s1 [e|]]; by simpl.
Qed.

Lemma messages_unfold se users s :
  messages env se users s
  = let '((s1, chans), err) :=
      StreamChannels (dumper se) AllChanTypes (messagesCallback env se users)
        (prepared se s, []) in
    match err with
    | Some e => (s1, Some (Errorf "channels: error" e))
    | None =>
        let '(s2, _) :=
          serializeToFile env (Join (dir se) "channels_full.json.bak")
            (DocChannels chans) s1 in
        serializeToFile env (Join (dir se) "channels.json")
          (DocChannels (filterOutStrangeChannels chans).1)
          (emit (filterOutStrangeChannels chans).2 s2)
    end.
Proof.
  unfold messages, prepared.
  destruct (StreamChannels _ _ _ _) as [[s1 chans] [e|]]; [done|].
  destruct (serializeToFile env _ _ s1) as [s2 e].
  by destruct (filterOutStrangeChannels chans).
Qed.

(** A nameless channel that is not a direct-message channel and has at
    least one message: it is traced, nothing is saved, and the export
    of the conversation is the unknown-entity error. *)
Lemma exportConversation_unknown_entity se ch users s s1 conv :
  Channel.NameNormalized ch = "" → Channel.IsIM ch = false →
  DumpMessagesRaw (dumper se) (Channel.ID ch) (Oldest (opts se))
    (Latest (opts se)) (downloadFn env se (Channel.Name ch)) s
  = (s1, (conv, None)) →
  Messages conv ≠ [] →
  (byDate env conv users).2 = None →
  exportConversation env se ch users s
  = (emit [TraceUnsupported ch] s1, Some errUnknownEntity).
Proof.
  intros Hnn Him Hdump Hms Hdates. unfold exportConversation.
  rewrite Hdump. rewrite bool_decide_eq_false_2.
  2:{ intros Hlen. by apply nil_length_inv in Hlen. }
  destruct (byDate env conv users) as [msgs [e|]]; [done|].
  unfold validName. rewrite bool_decide_eq_false_2 by (by intros []).
  by rewrite Him.
Qed.

End Stream.

(** C1, as the code has it: a channel without [NameNormalized] that is
    not a direct-message channel and has at least one message in the
    window is written to the execution trace and nothing is saved for
    it, but it is not skipped: its export is the unknown-entity error,
    and once the channels listed before it are exported the run stops
    at it and returns that error, wrapped as a channels error. *)
Theorem Run_stops_at_unknown_entity (env : Env) (se : Export) (s s1 s2 s3 : State)
    (us : Users) (pre post : list Channel.t) (ch : Channel.t)
    (listingErr : option error) (chans : list Channel.t) (conv : Conversation) :
  users env se s = (s1, (us, None)) →
  remoteChannels (dumper se) AllChanTypes = (pre ++ ch :: post, listingErr) →
  streamLoop (messagesCallback env se us) pre (prepared se s1, [])
  = ((s2, chans), None) →
  Channel.NameNormalized ch = "" → Channel.IsIM ch = false →
  DumpMessagesRaw (dumper se) (Channel.ID ch) (Oldest (opts se))
    (Latest (opts se)) (downloadFn env se (Channel.Name ch)) s2
  = (s3, (conv, None)) →
  Messages conv ≠ [] →
  (byDate env conv us).2 = None →
  exportConversation env se ch us s2
  = (emit [TraceUnsupported ch] s3, Some errUnknownEntity)
  ∧ Run env se s
    = (emit [TraceUnsupported ch] s3,
       Some (Errorf "channels: error" errUnknownEntity)).
Proof.
  intros Hus Hlist Hpre Hnn Him Hdump Hms Hdates.
  pose proof (exportConversation_unknown_entity env se ch us s2 s3 conv
                Hnn Him Hdump Hms Hdates) as Hexp.
  split; [done|].
  unfold Run. rewrite Hus, messages_unfold. unfold StreamChannels.
  rewrite Hlist, streamLoop_app, Hpre. simpl. by rewrite Hexp.
Qed.

Lemma Run_stops_at_unknown_entity_witness :
  (Run Sample.env Sample.exportNameless Sample.empty).2
  = Some (Errorf "channels: error" errUnknownEntity).
Proof.
  pose (us := [Sample.alice; Sample.bob]).
  pose (s1 := (users Sample.env Sample.exportNameless Sample.empty).1).
  pose (σ := (streamLoop (messagesCallback Sample.env Sample.exportNameless us)
                [Sample.general] (prepared Sample.exportNameless s1, [])).1).
  pose (r := DumpMessagesRaw Sample.workspaceNameless "X01" 0 2000000000
               (downloadFn Sample.env Sample.exportNameless "") σ.1).
  rewrite (proj2 (Run_stops_at_unknown_entity Sample.env Sample.exportNameless
                    Sample.empty s1 σ.1 r.1 us [Sample.general] [Sample.direct]
                    Sample.nameless None σ.2 r.2.1
                    ltac:(vm_compute; reflexivity)
                    ltac:(vm_compute; reflexivity)
                    ltac:(vm_compute; reflexivity)
                    ltac:(reflexivity)
                    ltac:(reflexivity)
                    ltac:(vm_compute; reflexivity)
                    ltac:(vm_compute; discriminate)
                    ltac:(vm_compute; reflexivity))).
  reflexivity.
Defined.

(** C1, as the claim states it, fails: the sample workspace exports
    well, and with one more channel, nameless, not a direct-message
    channel and holding one message, the run returns the error of that
    channel; neither channel manifest is written. *)
Lemma Run_fails_on_nameless_channel :
  (Run Sample.env Sample.export Sample.empty).2 = None
  ∧ Channel.NameNormalized Sample.nameless = ""
  ∧ Channel.IsIM Sample.nameless = false
  ∧ Sample.nameless ∈ (remoteChannels (dumper Sample.exportNameless) AllChanTypes).1
  ∧ remoteHistory (dumper Sample.exportNameless) "X01" 0 2000000000
    = ([[Sample.m4]], None)
  ∧ (Run Sample.env Sample.exportNameless Sample.empty).2
    = Some (Errorf "channels: error" errUnknownEntity)
  ∧ files (Run Sample.env Sample.exportNameless Sample.empty).1
      !! "out/channels.json" = None
  ∧ files (Run Sample.env Sample.exportNameless Sample.empty).1
      !! "out/channels_full.json.bak" = None.
Proof.
  split_and!; try (vm_compute; reflexivity).
  apply list_elem_of_In. vm_compute. tauto.
Qed.

(** ** The lifecycle of the downloader *)

Lemma filter_Lifecycle_none (evs : list Event) :
  Forall (λ e, ¬ Lifecycle e) evs → filter Lifecycle evs = [].
Proof.
  induction 1 as [|e evs He _ IH]; [done|].
  by rewrite filter_cons_False.
Qed.

Lemma lifecycle_emit evs s :
  Forall (λ e, ¬ Lifecycle e) evs → lifecycle (emit evs s) = lifecycle s.
Proof.
  intros Hevs. unfold lifecycle, emit; simpl.
  by rewrite filter_app, (filter_Lifecycle_none evs Hevs), app_nil_r.
Qed.

Lemma filterOutStrangeChannels_prints chans :
  Forall (λ e, ¬ Lifecycle e) (filterOutStrangeChannels chans).2.
Proof.
  unfold filterOutStrangeChannels.
  assert (H : ∀ acc, Forall (λ e, ¬ Lifecycle e) acc.2 →
              Forall (λ e, ¬ Lifecycle e) (foldl filterStep acc chans).2).
  { induction chans as [|c chans IH]; intros acc Hacc; simpl; [done|].
    apply IH. unfold filterStep.
    destruct (_ && _); simpl; [done|].
    apply Forall_app; split; [done|].
    constructor; [|done]. by intros [|]. }
  by apply H.
Qed.

Section Lifecycle.

Variable env : Env.

Lemma lifecycle_serializeToFile filename data s :
  lifecycle (serializeToFile env filename data s).1 = lifecycle s.
Proof.
  unfold serializeToFile, serialize.
  destruct (createFails env filename); [done|].
  by destruct (encodeFails env filename).
Qed.

Lemma lifecycle_saveFiles basedir entries s :
  lifecycle (saveFiles env basedir entries s).1 = lifecycle s.
Proof.
  revert s. induction entries as [|[d ms] rest IH]; intros s; simpl; [done|].
  pose proof (lifecycle_serializeToFile
                (Join basedir (d +:+ ".json")) (DocMessages ms) s) as Hw.
  destruct (serializeToFile env _ _ s) as [s1 [e|]]; simpl in *; [done|].
  by rewrite IH.
Qed.

Lemma lifecycle_saveChannel se channelName msgs s :
  lifecycle (saveChannel env se channelName msgs s).1 = lifecycle s.
Proof.
  unfold saveChannel. destruct (mkdirFails env _); [done|].
  by rewrite lifecycle_saveFiles.
Qed.

Lemma lifecycle_downloadLoop dir n fs s :
  lifecycle (downloadLoop env dir n fs s).1 = lifecycle s.
Proof.
  revert s. induction fs as [|f rest IH]; intros s; simpl; [done|].
  unfold DownloadFile. destruct (started (dl s)) eqn:Hon; simpl; [|done].
  destruct (fetchFails env f) as [e|].
  - by destruct (errors_Is e ErrNotStarted).
  - rewrite IH, lifecycle_emit.
    + unfold lifecycle; simpl. by rewrite Hon.
    + constructor; [|done]. by intros [|].
Qed.

Lemma lifecycle_dumpPages se channelName pages channelID acc s :
  lifecycle (dumpPages pages channelID (downloadFn env se channelName) acc s).1
  = lifecycle s.
Proof.
  revert acc s. induction pages as [|page rest IH]; intros acc s; simpl; [done|].
  pose proof (lifecycle_downloadLoop
                (Join (basedir se channelName) "attachments")
                (length (ExtractFiles page)) (ExtractFiles page) s) as Hp.
  unfold downloadFn.
  destruct (downloadLoop env _ _ _ s) as [s1 [r [e|]]]; simpl in *; [done|].
  by rewrite IH.
Qed.

Lemma lifecycle_DumpMessagesRaw se channelName channelID oldest latest s :
  lifecycle (DumpMessagesRaw (dumper se) channelID oldest latest
               (downloadFn env se channelName) s).1
  = lifecycle s.
Proof.
  unfold DumpMessagesRaw.
  destruct (remoteHistory (dumper se) channelID oldest latest) as [pages rerr].
  pose proof (lifecycle_dumpPages se channelName pages channelID [] s) as Hp.
  destruct (dumpPages pages channelID _ [] s) as [s1 [ms [e|]]];
    simpl in *; [done|].
  by destruct rerr.
Qed.

Lemma validName_traces ch uidx :
  Forall (λ e, ¬ Lifecycle e) (validName ch uidx).2.
Proof.
  unfold validName. destruct (bool_decide _); simpl; [done|].
  destruct (negb _); simpl; [by constructor; [intros [|]|]|].
  destruct (uidx !! _); simpl; [done|]. by constructor; [intros [|]|].
Qed.

Lemma lifecycle_exportConversation se ch users s :
  lifecycle (exportConversation env se ch users s).1 = lifecycle s.
Proof.
  unfold exportConversation.
  pose proof (lifecycle_DumpMessagesRaw se (Channel.Name ch) (Channel.ID ch)
                (Oldest (opts se)) (Latest (opts se)) s) as Hd.
  destruct (DumpMessagesRaw _ _ _ _ _ s) as [s1 [conv [e|]]];
    simpl in *; [done|].
  destruct (bool_decide _); [done|].
  destruct (byDate env conv users) as [msgs [e|]]; [done|].
  pose proof (validName_traces ch (IndexByID users)) as Ht.
  destruct (validName ch (IndexByID users)) as [[name err] traced].
  simpl in Ht. destruct err as [e|]; simpl.
  - by rewrite lifecycle_emit.
  - by rewrite lifecycle_saveChannel, lifecycle_emit.
Qed.

Lemma lifecycle_streamLoop se users chans s acc :
  lifecycle (streamLoop (messagesCallback env se users) chans (s, acc)).1.1
  = lifecycle s.
Proof.
  revert s acc. induction chans as [|ch chans IH]; intros s acc; simpl; [done|].
  pose proof (lifecycle_exportConversation se ch users s) as Hc.
  destruct (exportConversation env se ch users s) as [s1 [e|]];
    simpl in *; [done|].
  by rewrite IH.
Qed.

Lemma lifecycle_messages se users s :
  lifecycle (messages env se users s).1 = lifecycle (prepared se s).
Proof.
  rewrite messages_unfold. unfold StreamChannels.
  destruct (remoteChannels (dumper se) AllChanTypes) as [chans rerr].
  pose proof (lifecycle_streamLoop se users chans (prepared se s) []) as Hs.
  destruct (streamLoop _ chans _) as [[s1 acc] [e|]]; simpl in *; [done|].
  destruct rerr as [e|]; [done|].
  pose proof (lifecycle_serializeToFile
                (Join (dir se) "channels_full.json.bak") (DocChannels acc) s1)
    as Hb.
  destruct (serializeToFile env _ _ s1) as [s2 e]; simpl in *.
  rewrite lifecycle_serializeToFile, lifecycle_emit; [congruence|].
  apply filterOutStrangeChannels_prints.
Qed.

Lemma lifecycle_prepared_files se s :
  IncludeFiles (opts se) = true →
  lifecycle (prepared se s) = (true, filter Lifecycle (log s) ++ [DownloaderStart]).
Proof.
  intros Hinc. unfold prepared. rewrite Hinc.
  unfold lifecycle, Start, emit, setDl; simpl.
  rewrite filter_app. f_equal.
Qed.

Lemma lifecycle_users se s :
  lifecycle (users env se s).1 = lifecycle s.
Proof.
  unfold users. destruct (GetUsers (dumper se)) as [us [e|]]; [done|].
  pose proof (lifecycle_serializeToFile
                (Join (dir se) "users.json") (DocUsers us) s) as Hw.
  by destruct (serializeToFile env _ _ s) as [s1 [e|]].
Qed.

End Lifecycle.

(** With file download enabled and the users saved, the one lifecycle
    call of a run is [Start], and the downloader runs at the return. *)
Lemma Run_lifecycle_with_files (env : Env) (se : Export) (s : State) :
  IncludeFiles (opts se) = true →
  (users env se s).2.2 = None →
  lifecycle (Run env se s).1
  = (true, filter Lifecycle (log s) ++ [DownloaderStart])
  ∧ ((DownloaderStop ∉ log s) → DownloaderStop ∉ log (Run env se s).1).
Proof.
  intros Hinc Hus.
  assert (Hlife : lifecycle (Run env se s).1
                  = (true, filter Lifecycle (log s) ++ [DownloaderStart])).
  { unfold Run. pose proof (lifecycle_users env se s) as Hu.
    destruct (users env se s) as [s1 [us [e|]]]; simpl in *; [done|].
    pose proof (lifecycle_messages env se us s1) as Hm.
    destruct (messages env se us s1) as [s2 [e|]]; simpl in *;
      rewrite Hm, (lifecycle_prepared_files se s1 Hinc);
      injection Hu as _ ->; done. }
  split; [done|]. intros Hfresh Hstop.
  assert (Hin : DownloaderStop ∈ (lifecycle (Run env se s).1).2).
  { unfold lifecycle; simpl. apply list_elem_of_filter. split; [by right|done]. }
  rewrite Hlife in Hin. simpl in Hin.
  apply elem_of_app in Hin as [Hin|Hin].
  - apply list_elem_of_filter in Hin as [_ Hin]. by apply Hfresh.
  - by apply list_elem_of_singleton in Hin.
Qed.

(** C6, as the claim states it, fails: the sample run with file
    download enabled succeeds after two attachments were handed to the
    downloader, and when it returns the downloader was never stopped;
    a call of [Stop] before the return would have left another
    lifecycle. *)
Lemma Run_returns_with_running_downloader :
  IncludeFiles (opts Sample.export) = true
  ∧ (Run Sample.env Sample.export Sample.empty).2 = None
  ∧ log (Run Sample.env Sample.export Sample.empty).1
    = [DownloaderStart; LogSent "photo.png"; LogSent "notes.txt";
       LogFilterOut "U2"]
  ∧ (DownloaderStop ∉ log (Run Sample.env Sample.export Sample.empty).1)
  ∧ dl (Run Sample.env Sample.export Sample.empty).1
    = mkDownloader true [("out/general/attachments", Sample.photo);
                         ("out/general/attachments", Sample.notes)]
  ∧ lifecycle (Run Sample.env Sample.export Sample.empty).1
    = (true, [DownloaderStart])
  ∧ lifecycle (Stop (Run Sample.env Sample.export Sample.empty).1)
    = (false, [DownloaderStart; DownloaderStop]).
Proof.
  split_and!; try (vm_compute; reflexivity).
  intros H. apply list_elem_of_In in H. vm_compute in H.
  destruct H as [H|[H|[H|[H|[]]]]]; discriminate.
Qed.

(** ** The backup of the channel list *)

Lemma manifest_paths_differ (d : string) :
  Join d "channels.json" ≠ Join d "channels_full.json.bak".
Proof.
  rewrite !Join_nonempty_r by done.
  destruct (decide (d = "")); [done|].
  intros H. apply (inj (String.app d)), (inj (String.app "/")) in H. done.
Qed.

Section Backup.

Variable env : Env.

Lemma serializeToFile_other filename data s p :
  p ≠ filename →
  files (serializeToFile env filename data s).1 !! p = files s !! p.
Proof.
  intros Hp. unfold serializeToFile, serialize.
  destruct (createFails env filename); [done|].
  destruct (encodeFails env filename); simpl.
  - by rewrite lookup_insert_ne.
  - by rewrite !lookup_insert_ne.
Qed.

Lemma serializeToFile_lookup filename data s :
  createFails env filename = None → encodeFails env filename = None →
  files (serializeToFile env filename data s).1 !! filename = Some data.
Proof.
  intros Hc He. unfold serializeToFile, serialize. rewrite Hc, He. simpl.
  by rewrite lookup_insert_eq.
Qed.

Lemma messages_backup se users s :
  (StreamChannels (dumper se) AllChanTypes (messagesCallback env se users)
     (prepared se s, [])).2 = None →
  createFails env (Join (dir se) "channels_full.json.bak") = None →
  encodeFails env (Join (dir se) "channels_full.json.bak") = None →
  files (messages env se users s).1 !! Join (dir se) "channels_full.json.bak"
  = Some (DocChannels (remoteChannels (dumper se) AllChanTypes).1).
Proof.
  intros Hstream Hc He. rewrite messages_unfold.
  unfold StreamChannels in *.
  destruct (remoteChannels (dumper se) AllChanTypes) as [chans rerr].
  destruct (streamLoop _ chans _) as [[s1 acc] [e|]] eqn:Hloop;
    simpl in *; [done|].
  subst rerr. apply streamLoop_collects in Hloop. simpl in Hloop. subst acc.
  pose proof (serializeToFile_lookup (Join (dir se) "channels_full.json.bak")
                (DocChannels chans) s1 Hc He) as Hb.
  destruct (serializeToFile env _ _ s1) as [s2 e]; simpl in *.
  rewrite serializeToFile_other; [done|].
  intros H. symmetry in H. by apply manifest_paths_differ in H.
Qed.

Lemma messages_manifest se users s :
  (StreamChannels (dumper se) AllChanTypes (messagesCallback env se users)
     (prepared se s, [])).2 = None →
  createFails env (Join (dir se) "channels.json") = None →
  encodeFails env (Join (dir se) "channels.json") = None →
  files (messages env se users s).1 !! Join (dir se) "channels.json"
  = Some (DocChannels
            (filterOutStrangeChannels
               (remoteChannels (dumper se) AllChanTypes).1).1).
Proof.
  intros Hstream Hc He. rewrite messages_unfold.
  unfold StreamChannels in *.
  destruct (remoteChannels (dumper se) AllChanTypes) as [chans rerr].
  destruct (streamLoop _ chans _) as [[s1 acc] [e|]] eqn:Hloop;
    simpl in *; [done|].
  subst rerr. apply streamLoop_collects in Hloop. simpl in Hloop. subst acc.
  destruct (serializeToFile env _ _ s1) as [s2 e]; simpl in *.
  by apply serializeToFile_lookup.
Qed.

End Backup.

(** C10, as the code has it: the callback appends every channel whose
    export succeeds to the accumulated list; when the stream of
    channels ends well and the backup can be written, the backup holds
    every channel of the listing, in order, whether or not files were
    written for it; and a
    channel without [NameNormalized] that is not a direct-message
    channel and has no message in the window is exported without error
    and without name resolution, so that it is recorded as well. *)
Theorem exported_channels_reach_backup (env : Env) (se : Export)
    (users : Users) (s : State) :
  (∀ ch s1 chans,
     (exportConversation env se ch users s1).2 = None →
     messagesCallback env se users ch (s1, chans)
     = (((exportConversation env se ch users s1).1, chans ++ [ch]), None))
  ∧ ((StreamChannels (dumper se) AllChanTypes (messagesCallback env se users)
        (prepared se s, [])).2 = None →
     createFails env (Join (dir se) "channels_full.json.bak") = None →
     encodeFails env (Join (dir se) "channels_full.json.bak") = None →
     files (messages env se users s).1 !! Join (dir se) "channels_full.json.bak"
     = Some (DocChannels (remoteChannels (dumper se) AllChanTypes).1))
  ∧ (∀ ch s1,
     Channel.NameNormalized ch = "" → Channel.IsIM ch = false →
     (DumpMessagesRaw (dumper se) (Channel.ID ch) (Oldest (opts se))
        (Latest (opts se)) (downloadFn env se (Channel.Name ch)) s1).2.2 = None →
     Messages (DumpMessagesRaw (dumper se) (Channel.ID ch) (Oldest (opts se))
        (Latest (opts se)) (downloadFn env se (Channel.Name ch)) s1).2.1 = [] →
     exportConversation env se ch users s1 = (s1, None)).
Proof.
  split_and!.
  - intros ch s1 chans. apply messagesCallback_appends.
  - apply messages_backup.
  - intros ch s1 _ _. apply exportConversation_no_messages.
Qed.

Lemma exported_channels_reach_backup_witness :
  files (messages Sample.env Sample.exportSilent [Sample.alice; Sample.bob]
           Sample.empty).1 !! "out/channels_full.json.bak"
  = Some (DocChannels [Sample.general; Sample.nameless])
  ∧ exportConversation Sample.env Sample.exportSilent Sample.nameless
      [Sample.alice; Sample.bob] (Start Sample.empty)
    = (Start Sample.empty, None)
  ∧ messagesCallback Sample.env Sample.exportSilent [Sample.alice; Sample.bob]
      Sample.nameless (Start Sample.empty, [Sample.general])
    = ((Start Sample.empty, [Sample.general; Sample.nameless]), None).
Proof.
  pose proof (exported_channels_reach_backup Sample.env Sample.exportSilent
                [Sample.alice; Sample.bob] Sample.empty) as (Happend & Hbak & Hsilent).
  split_and!.
  - apply Hbak; vm_compute; reflexivity.
  - apply Hsilent; vm_compute; reflexivity.
  - rewrite Happend; vm_compute; reflexivity.
Defined.

(** C10, as the claim states it, fails: a channel whose export
    succeeds is in no backup when a later channel cannot be dumped, for
    the run then returns before the backup is written; and when the
    backup file cannot be created the run still returns without error,
    with the manifest written and no backup. *)
Lemma exported_channel_missing_from_backup :
  (exportConversation Sample.env Sample.exportBroken Sample.general
     [Sample.alice; Sample.bob]
     (prepared Sample.exportBroken
        (users Sample.env Sample.exportBroken Sample.empty).1)).2 = None
  ∧ files (Run Sample.env Sample.exportBroken Sample.empty).1
      !! "out/general/2022-02-17.json"
    = Some (DocMessages [Sample.m1; Sample.m2])
  ∧ (∃ e, (Run Sample.env Sample.exportBroken Sample.empty).2 = Some e
          ∧ errors_Is e (OtherError "channel_not_found") = true)
  ∧ files (Run Sample.env Sample.exportBroken Sample.empty).1
      !! "out/channels_full.json.bak" = None
  ∧ (Run Probe.envNoBackup Sample.export Sample.empty).2 = None
  ∧ files (Run Probe.envNoBackup Sample.export Sample.empty).1
      !! "out/channels.json"
    = Some (DocChannels [Sample.general])
  ∧ files (Run Probe.envNoBackup Sample.export Sample.empty).1
      !! "out/channels_full.json.bak" = None.
Proof.
  split_and!; try (vm_compute; reflexivity).
  eexists; split; vm_compute; reflexivity.
Qed.

(** The layout of a whole export, without file download: the users,
    both channel documents, one file per date for the public channel
    and one for the direct-message channel, under the name of the
    peer. *)
Example Run_sample_layout :
  (Run Sample.env Sample.exportNoFiles Sample.empty).2 = None
  ∧ files (Run Sample.env Sample.exportNoFiles Sample.empty).1
    = list_to_map
        [("out/users.json", DocUsers [Sample.alice; Sample.bob]);
         ("out/general/2022-02-17.json", DocMessages [Sample.m1; Sample.m2]);
         ("out/general/2022-02-18.json", DocMessages [Sample.m3]);
         ("out/IM-bob/2022-02-18.json", DocMessages [Sample.m4]);
         ("out/channels_full.json.bak",
          DocChannels [Sample.general; Sample.direct]);
         ("out/channels.json", DocChannels [Sample.general])]
  ∧ dl (Run Sample.env Sample.exportNoFiles Sample.empty).1 = Downloader_New.
Proof. split_and!; vm_compute; reflexivity. Qed.

(** ** The channel manifest *)

(** C2, as the code has it: the filter keeps exactly the channels whose
    [Name] and [NameNormalized] are both non-empty (a channel missing
    either one is dropped), the kept channels stay in their order, and
    the filtered listing is what a run whose stream of channels ends
    well writes to the channel manifest. *)
Theorem filterOutStrangeChannels_keeps_fully_named (chans : list Channel.t) :
  (filterOutStrangeChannels chans).1 = filter fullyNamed chans
  ∧ (∀ c, c ∈ (filterOutStrangeChannels chans).1
          ↔ c ∈ chans ∧ Channel.Name c ≠ "" ∧ Channel.NameNormalized c ≠ "")
  ∧ (filterOutStrangeChannels chans).1 `sublist_of` chans
  ∧ (∀ env se users s,
       (remoteChannels (dumper se) AllChanTypes).1 = chans →
       (StreamChannels (dumper se) AllChanTypes (messagesCallback env se users)
          (prepared se s, [])).2 = None →
       createFails env (Join (dir se) "channels.json") = None →
       encodeFails env (Join (dir se) "channels.json") = None →
       files (messages env se users s).1 !! Join (dir se) "channels.json"
       = Some (DocChannels (filter fullyNamed chans))).
Proof.
  split_and!.
  - apply filterOutStrangeChannels_filter.
  - intros c. rewrite filterOutStrangeChannels_filter, list_elem_of_filter.
    unfold fullyNamed. tauto.
  - rewrite filterOutStrangeChannels_filter. apply sublist_filter.
  - intros env se users s <- Hstream Hc He.
    rewrite <- filterOutStrangeChannels_filter. by apply messages_manifest.
Qed.

Lemma filterOutStrangeChannels_keeps_fully_named_witness :
  files (messages Sample.env Sample.export [Sample.alice; Sample.bob]
           Sample.empty).1 !! "out/channels.json"
  = Some (DocChannels [Sample.general])
  ∧ (filterOutStrangeChannels [Sample.general; Sample.direct]).1
    = [Sample.general].
Proof.
  pose proof (filterOutStrangeChannels_keeps_fully_named
                [Sample.general; Sample.direct]) as (Hfilter & _ & _ & Hfile).
  split.
  - apply (Hfile Sample.env Sample.export [Sample.alice; Sample.bob]
             Sample.empty); vm_compute; reflexivity.
  - rewrite Hfilter. vm_compute. reflexivity.
Defined.

(** C2, as the claim states it, fails: a channel with a [Name] and no
    [NameNormalized] misses only one of the two names, and the filter
    drops it. *)
Lemma filterOutStrangeChannels_drops_half_named :
  (Channel.Name Sample.halfNamed ≠ ""
   ∨ Channel.NameNormalized Sample.halfNamed ≠ "")
  ∧ Sample.halfNamed ∈ [Sample.general; Sample.halfNamed]
  ∧ (Sample.halfNamed
      ∉ (filterOutStrangeChannels [Sample.general; Sample.halfNamed]).1)
  ∧ (filterOutStrangeChannels [Sample.general; Sample.halfNamed]).1
    = [Sample.general].
Proof.
  split_and!.
  - left. discriminate.
  - set_solver.
  - vm_compute. intros H. apply list_elem_of_In in H. simpl in H.
    destruct H as [H|[]]. discriminate.
  - reflexivity.
Qed.

(** * Further properties of the exporter *)

(** ** Names and the filter *)

(** X1: name resolution either succeeds with a name that is not empty,
    the normalized name or the direct-message prefix followed by the
    raw ID of the peer or by the name of the user the index has for
    the peer, or fails with the unknown-entity error and the empty name,
    and this only for a channel without normalized name that is not a
    direct-message channel. *)
Theorem validName_outcome (ch : Channel.t) (uidx : userIndex) :
  ((validName ch uidx).1.2 = None
   ∧ (validName ch uidx).1.1 ≠ ""
   ∧ ((validName ch uidx).1.1 = Channel.NameNormalized ch
      ∨ (validName ch uidx).1.1 = userPrefix +:+ Channel.User ch
      ∨ ∃ user, uidx !! Channel.User ch = Some user
                ∧ (validName ch uidx).1.1 = userPrefix +:+ User.Name user))
  ∨ ((validName ch uidx).1.2 = Some errUnknownEntity
     ∧ (validName ch uidx).1.1 = ""
     ∧ Channel.NameNormalized ch = ""
     ∧ Channel.IsIM ch = false).
Proof.
  unfold validName.
  destruct (decide (Channel.NameNormalized ch = "")) as [Hnn|Hnn].
  - rewrite bool_decide_eq_false_2 by (by intros []).
    destruct (Channel.IsIM ch); simpl.
    + left. destruct (uidx !! Channel.User ch) as [user|]; simpl;
        split_and!; try done; right; [right; by exists user|by left].
    + by right.
  - rewrite bool_decide_eq_true_2 by done. simpl. left. split_and!; auto.
Qed.

Lemma filterStep_foldl_printed chans acc :
  (foldl filterStep acc chans).2
  = acc.2 ++ ((λ c, LogFilterOut (Channel.User c))
                <$> filter (λ c, ¬ fullyNamed c) chans).
Proof.
  revert acc. induction chans as [|c chans IH]; intros acc; simpl.
  - by rewrite app_nil_r.
  - rewrite IH, filter_cons. unfold filterStep.
    destruct (decide (¬ fullyNamed c)) as [Hno|Hyes].
    + destruct (bool_decide (Channel.Name c ≠ "")) eqn:E1;
        destruct (bool_decide (Channel.NameNormalized c ≠ "")) eqn:E2;
        simpl; rewrite <- ?app_assoc; try done.
      apply bool_decide_eq_true in E1. apply bool_decide_eq_true in E2.
      by destruct Hno.
    + apply dec_stable in Hyes as [Hn Hnn].
      by rewrite !bool_decide_eq_true_2 by done.
Qed.

(** X2: the filter accounts for every channel: a channel is kept or a
    line is printed for it, and the printed lines name the users of the
    dropped channels in the order of the input. *)
Theorem filterOutStrangeChannels_accounts (chans : list Channel.t) :
  (filterOutStrangeChannels chans).2
  = ((λ c, LogFilterOut (Channel.User c))
       <$> filter (λ c, ¬ fullyNamed c) chans)
  ∧ (length (filterOutStrangeChannels chans).1
     + length (filterOutStrangeChannels chans).2 = length chans)%nat.
Proof.
  assert (Hprinted : (filterOutStrangeChannels chans).2
                     = ((λ c, LogFilterOut (Channel.User c))
                          <$> filter (λ c, ¬ fullyNamed c) chans)).
  { unfold filterOutStrangeChannels. by rewrite filterStep_foldl_printed. }
  split; [done|].
  rewrite Hprinted, filterOutStrangeChannels_filter, length_fmap, <- length_app.
  by rewrite filter_app_complement.
Qed.

(** ** Writing files *)

(** X3: [serializeToFile] succeeds exactly when the file can be created
    and encoded, and then the file holds the document; when the file
    cannot be created nothing changes; when the encoding fails the file
    is left truncated, whatever it held before; and in every case no
    other file, no directory, and neither downloader nor log change. *)
Theorem serializeToFile_outcome (env : Env) (filename : string) (data : Doc)
    (s : State) :
  ((serializeToFile env filename data s).2 = None
   ↔ createFails env filename = None ∧ encodeFails env filename = None)
  ∧ ((serializeToFile env filename data s).2 = None →
     files (serializeToFile env filename data s).1 !! filename = Some data)
  ∧ (createFails env filename ≠ None →
     (serializeToFile env filename data s).1 = s)
  ∧ (createFails env filename = None → encodeFails env filename ≠ None →
     files (serializeToFile env filename data s).1 !! filename
     = Some DocTruncated)
  ∧ (∀ p, p ≠ filename →
     files (serializeToFile env filename data s).1 !! p = files s !! p)
  ∧ dirs (serializeToFile env filename data s).1 = dirs s
  ∧ dl (serializeToFile env filename data s).1 = dl s
  ∧ log (serializeToFile env filename data s).1 = log s.
Proof.
  unfold serializeToFile, serialize.
  destruct (createFails env filename) as [e|];
    [|destruct (encodeFails env filename) as [e|]]; simpl; split_and!;
    try done; try (by intros []); try (by split; [|intros []]);
    try (intros; by rewrite ?lookup_insert_eq);
    intros p Hp; by rewrite ?lookup_insert_ne.
Qed.

Lemma serializeToFile_outcome_witness :
  files (serializeToFile Sample.env "out/users.json" (DocUsers [Sample.alice])
           Probe.used).1 !! "out/users.json"
  = Some (DocUsers [Sample.alice])
  ∧ files (serializeToFile Probe.envDiskFull "out/general/2022-02-18.json"
             (DocMessages [Sample.m3]) Probe.used).1
      !! "out/general/2022-02-18.json"
    = Some DocTruncated
  ∧ files (serializeToFile Sample.env "out/users.json" (DocUsers [Sample.alice])
             Probe.used).1 !! "out/general/2022-02-17.json"
    = Some (DocMessages [Sample.m4]).
Proof.
  pose proof (serializeToFile_outcome Sample.env "out/users.json"
                (DocUsers [Sample.alice]) Probe.used)
    as (_ & Hok & _ & _ & Hother & _).
  pose proof (serializeToFile_outcome Probe.envDiskFull
                "out/general/2022-02-18.json" (DocMessages [Sample.m3])
                Probe.used)
    as (_ & _ & _ & Htrunc & _).
  split_and!.
  - apply Hok. vm_compute. reflexivity.
  - apply Htrunc; vm_compute; [reflexivity|discriminate].
  - rewrite Hother; [vm_compute; reflexivity|discriminate].
Defined.

Section ChannelFiles.

Variable env : Env.

(** Apart from the files, the loop of [saveChannel] changes nothing. *)
Lemma saveFiles_rest basedir entries s :
  dirs (saveFiles env basedir entries s).1 = dirs s
  ∧ dl (saveFiles env basedir entries s).1 = dl s
  ∧ log (saveFiles env basedir entries s).1 = log s.
Proof.
  revert s. induction entries as [|[d ms] rest IH]; intros s; simpl; [done|].
  unfold serializeToFile, serialize.
  destruct (createFails env _); [done|].
  destruct (encodeFails env _); simpl; [done|].
  destruct (IH (setFiles <[Join basedir (d +:+ ".json") := DocMessages ms]>
                  (setFiles <[Join basedir (d +:+ ".json") := DocTruncated]> s)))
    as (-> & -> & ->).
  done.
Qed.

Lemma saveChannel_other se channelName msgs s p :
  p ∉ dateFiles se channelName msgs →
  files (saveChannel env se channelName msgs s).1 !! p = files s !! p.
Proof.
  intros Hp. unfold saveChannel.
  destruct (mkdirFails env (basedir se channelName)); [done|].
  by rewrite saveFiles_other.
Qed.

Lemma saveChannel_rest se channelName msgs s :
  dirs (saveChannel env se channelName msgs s).1
    ⊆ {[basedir se channelName]} ∪ dirs s
  ∧ dl (saveChannel env se channelName msgs s).1 = dl s
  ∧ log (saveChannel env se channelName msgs s).1 = log s.
Proof.
  unfold saveChannel.
  destruct (mkdirFails env (basedir se channelName)); simpl.
  - split_and!; [set_solver|done|done].
  - destruct (saveFiles_rest (basedir se channelName) (map_to_list msgs)
                (setDirs (λ d, {[basedir se channelName]} ∪ d) s))
      as (-> & -> & ->).
    done.
Qed.

End ChannelFiles.

(** X4: [saveChannel] stays inside the directory of the channel: it
    writes no file but the files of the dates of the grouping, whether
    it succeeds or stops at a failure; when the directory cannot be
    made it changes nothing and fails; otherwise the directory is
    there afterwards, also for a grouping without dates; downloader
    and log are not touched. *)
Theorem saveChannel_stays_in_directory (env : Env) (se : Export)
    (channelName : string) (msgs : messagesByDate) (s : State) :
  (∀ p, p ∉ dateFiles se channelName msgs →
     files (saveChannel env se channelName msgs s).1 !! p = files s !! p)
  ∧ (mkdirFails env (basedir se channelName) ≠ None →
     (saveChannel env se channelName msgs s).1 = s
     ∧ (saveChannel env se channelName msgs s).2 ≠ None)
  ∧ (mkdirFails env (basedir se channelName) = None →
     dirs (saveChannel env se channelName msgs s).1
     = {[basedir se channelName]} ∪ dirs s)
  ∧ dl (saveChannel env se channelName msgs s).1 = dl s
  ∧ log (saveChannel env se channelName msgs s).1 = log s.
Proof.
  split_and!.
  - intros p. apply saveChannel_other.
  - unfold saveChannel.
    by destruct (mkdirFails env (basedir se channelName)).
  - unfold saveChannel. intros ->.
    by destruct (saveFiles_rest env (basedir se channelName) (map_to_list msgs)
                   (setDirs (λ d, {[basedir se channelName]} ∪ d) s))
      as (-> & _).
  - apply saveChannel_rest.
  - apply saveChannel_rest.
Qed.

Lemma saveChannel_stays_in_directory_witness :
  let msgs := (byDate Probe.envDiskFull
                 (mkConversation [Sample.m1; Sample.m2; Sample.m3])
                 [Sample.alice; Sample.bob]).1 in
  files (saveChannel Probe.envDiskFull Sample.export "random" msgs
           Probe.used).1 !! "out/general/2022-02-17.json"
  = Some (DocMessages [Sample.m4])
  ∧ dirs (saveChannel Probe.envDiskFull Sample.export "random" msgs
            Probe.used).1
    = {[ "out/random" ]} ∪ {[ "out/general" ]}.
Proof.
  intros msgs.
  pose proof (saveChannel_stays_in_directory Probe.envDiskFull Sample.export
                "random" msgs Probe.used) as (Hother & _ & Hdir & _).
  split.
  - rewrite Hother; [vm_compute; reflexivity|].
    apply (bool_decide_unpack _). vm_compute. exact I.
  - apply Hdir. vm_compute. reflexivity.
Defined.

(** ** Attachments of a batch *)

Lemma downloadLoop_all_accepted env dir n fs s :
  started (dl s) = true →
  Forall (λ f, fetchFails env f = None) fs →
  (downloadLoop env dir n fs s).2 = (mkProcessResult "files" n, None)
  ∧ files (downloadLoop env dir n fs s).1 = files s
  ∧ dirs (downloadLoop env dir n fs s).1 = dirs s
  ∧ dl (downloadLoop env dir n fs s).1
    = mkDownloader true (accepted (dl s) ++ ((λ f, (dir, f)) <$> fs))
  ∧ log (downloadLoop env dir n fs s).1
    = log s ++ ((λ f, LogSent (File.Name f)) <$> fs).
Proof.
  intros Hon Hfs. revert s Hon.
  induction Hfs as [|f fs Hf _ IH]; intros s Hon; simpl.
  - rewrite !app_nil_r. split_and!; try done.
    destruct (dl s) as [b q]. simpl in Hon. by subst b.
  - unfold DownloadFile. rewrite Hon, Hf.
    destruct (IH (emit [LogSent (File.Name f)]
                    (setDl (λ d, mkDownloader (started d)
                                   (accepted d ++ [(dir, f)])) s)))
      as (-> & -> & -> & -> & ->); [done|].
    simpl. by rewrite <- !app_assoc.
Qed.

(** X5: with a running downloader and no failing fetch, the process
    function hands every file of the batch to the downloader once, in
    the order of the messages and under the attachments directory of
    the channel name it was made for, prints one line per file, reports
    the number of files, and writes no file or directory itself. *)
Theorem downloadFn_queues_every_file (env : Env) (se : Export)
    (channelName channelID : string) (msg : list Message.t) (s : State) :
  started (dl s) = true →
  Forall (λ f, fetchFails env f = None) (ExtractFiles msg) →
  (downloadFn env se channelName msg channelID s).2
  = (mkProcessResult "files" (length (ExtractFiles msg)), None)
  ∧ dl (downloadFn env se channelName msg channelID s).1
    = mkDownloader true
        (accepted (dl s)
         ++ ((λ f, (Join (Join (dir se) channelName) "attachments", f))
               <$> ExtractFiles msg))
  ∧ log (downloadFn env se channelName msg channelID s).1
    = log s ++ ((λ f, LogSent (File.Name f)) <$> ExtractFiles msg)
  ∧ files (downloadFn env se channelName msg channelID s).1 = files s
  ∧ dirs (downloadFn env se channelName msg channelID s).1 = dirs s.
Proof.
  intros Hon Hfs. unfold downloadFn.
  destruct (downloadLoop_all_accepted env
              (Join (basedir se channelName) "attachments")
              (length (ExtractFiles msg)) (ExtractFiles msg) s Hon Hfs)
    as (H1 & H2 & H3 & H4 & H5).
  by split_and!.
Qed.

Lemma downloadFn_queues_every_file_witness :
  (downloadFn Sample.env Sample.export "" [Sample.m2; Sample.m3] "D01"
     (Start Sample.empty)).2
  = (mkProcessResult "files" 2, None)
  ∧ dl (downloadFn Sample.env Sample.export "" [Sample.m2; Sample.m3] "D01"
          (Start Sample.empty)).1
    = mkDownloader true [("out/attachments", Sample.photo);
                         ("out/attachments", Sample.notes)].
Proof.
  pose proof (downloadFn_queues_every_file Sample.env Sample.export "" "D01"
                [Sample.m2; Sample.m3] (Start Sample.empty))
    as H.
  destruct H as (Hcount & Hdl & _).
  - reflexivity.
  - repeat constructor.
  - split; [exact Hcount|exact Hdl].
Defined.

(** ** What the export of a conversation may touch *)

Section ConversationFrame.

Variable env : Env.

Lemma dirs_downloadLoop dir n fs s :
  dirs (downloadLoop env dir n fs s).1 = dirs s.
Proof.
  revert s. induction fs as [|f rest IH]; intros s; simpl; [done|].
  unfold DownloadFile. destruct (started (dl s)); simpl; [|done].
  destruct (fetchFails env f) as [e|].
  - by destruct (errors_Is e ErrNotStarted).
  - by rewrite IH.
Qed.

Lemma dirs_DumpMessagesRaw se channelName channelID oldest latest s :
  dirs (DumpMessagesRaw (dumper se) channelID oldest latest
          (downloadFn env se channelName) s).1
  = dirs s.
Proof.
  unfold DumpMessagesRaw.
  destruct (remoteHistory (dumper se) channelID oldest latest) as [pages rerr].
  assert (Hpages : ∀ acc s0,
            dirs (dumpPages pages channelID (downloadFn env se channelName)
                    acc s0).1 = dirs s0).
  { induction pages as [|page rest IH]; intros acc s0; simpl; [done|].
    pose proof (dirs_downloadLoop
                  (Join (basedir se channelName) "attachments")
                  (length (ExtractFiles page)) (ExtractFiles page) s0) as Hp.
    unfold downloadFn.
    destruct (downloadLoop env _ _ _ s0) as [s1 [r [e|]]]; simpl in *; [done|].
    by rewrite IH. }
  specialize (Hpages [] s).
  destruct (dumpPages pages channelID _ [] s) as [s1 [ms [e|]]];
    simpl in *; [done|].
  by destruct rerr.
Qed.

Lemma exportConversation_other se ch users s p :
  ((validName ch (IndexByID users)).1.2 = None →
   p ∉ dateFiles se (validName ch (IndexByID users)).1.1
         (byDate env
            (DumpMessagesRaw (dumper se) (Channel.ID ch) (Oldest (opts se))
               (Latest (opts se)) (downloadFn env se (Channel.Name ch)) s).2.1
            users).1) →
  files (exportConversation env se ch users s).1 !! p = files s !! p.
Proof.
  unfold exportConversation.
  pose proof (files_DumpMessagesRaw env se (Channel.Name ch) (Channel.ID ch)
                (Oldest (opts se)) (Latest (opts se)) s) as Hframe.
  destruct (DumpMessagesRaw _ _ _ _ _ s) as [s1 [conv [e|]]]; simpl in *;
    [by rewrite Hframe|].
  destruct (bool_decide _); simpl; [by rewrite Hframe|].
  destruct (byDate env conv users) as [msgs [e|]]; simpl;
    [by rewrite Hframe|].
  destruct (validName ch (IndexByID users)) as [[name [e|]] traced]; simpl;
    intros Hp; [by rewrite Hframe|].
  rewrite saveChannel_other by auto. simpl. by rewrite Hframe.
Qed.

Lemma exportConversation_dirs se ch users s :
  dirs (exportConversation env se ch users s).1
  ⊆ {[basedir se (validName ch (IndexByID users)).1.1]} ∪ dirs s.
Proof.
  unfold exportConversation.
  pose proof (dirs_DumpMessagesRaw se (Channel.Name ch) (Channel.ID ch)
                (Oldest (opts se)) (Latest (opts se)) s) as Hframe.
  destruct (DumpMessagesRaw _ _ _ _ _ s) as [s1 [conv [e|]]]; simpl in *;
    [rewrite Hframe; apply union_subseteq_r|].
  destruct (bool_decide _); simpl; [rewrite Hframe; apply union_subseteq_r|].
  destruct (byDate env conv users) as [msgs [e|]]; simpl;
    [rewrite Hframe; apply union_subseteq_r|].
  destruct (validName ch (IndexByID users)) as [[name [e|]] traced]; simpl;
    [rewrite Hframe; apply union_subseteq_r|].
  destruct (saveChannel_rest env se name msgs (emit traced s1)) as (Hd & _).
  simpl in Hd. by rewrite Hframe in Hd.
Qed.

End ConversationFrame.

(** X6: whatever its outcome, the export of a conversation writes no
    file but the per-date files of the fetched messages under the
    resolved name of the channel, and nothing at all when the name
    cannot be resolved; the only directory it may add is the directory
    of that name. *)
Theorem exportConversation_touches_channel_only (env : Env) (se : Export)
    (ch : Channel.t) (users : Users) (s : State) :
  (∀ p,
     ((validName ch (IndexByID users)).1.2 = None →
      p ∉ dateFiles se (validName ch (IndexByID users)).1.1
            (byDate env
               (DumpMessagesRaw (dumper se) (Channel.ID ch) (Oldest (opts se))
                  (Latest (opts se)) (downloadFn env se (Channel.Name ch)) s).2.1
               users).1) →
     files (exportConversation env se ch users s).1 !! p = files s !! p)
  ∧ dirs (exportConversation env se ch users s).1
    ⊆ {[basedir se (validName ch (IndexByID users)).1.1]} ∪ dirs s.
Proof.
  split.
  - intros p. apply exportConversation_other.
  - apply exportConversation_dirs.
Qed.

Lemma exportConversation_touches_channel_only_witness :
  files (exportConversation Sample.env Sample.export Sample.direct
           [Sample.alice; Sample.bob] Probe.used).1
    !! "out/general/2022-02-17.json"
  = Some (DocMessages [Sample.m4])
  ∧ files (exportConversation Sample.env Sample.exportNameless Sample.nameless
             [Sample.alice; Sample.bob] Probe.used).1 !! "out/2022-02-18.json"
    = None.
Proof.
  pose proof (exportConversation_touches_channel_only Sample.env Sample.export
                Sample.direct [Sample.alice; Sample.bob] Probe.used)
    as (Hdirect & _).
  pose proof (exportConversation_touches_channel_only Sample.env
                Sample.exportNameless Sample.nameless
                [Sample.alice; Sample.bob] Probe.used)
    as (Hnameless & _).
  split.
  - rewrite Hdirect; [vm_compute; reflexivity|].
    intros _. apply (bool_decide_unpack _). vm_compute. exact I.
  - rewrite Hnameless; [vm_compute; reflexivity|].
    vm_compute. discriminate.
Defined.

(** ** The run as a whole *)

Section WholeRun.

Variable env : Env.

Lemma validName_ok_nonempty ch uidx :
  (validName ch uidx).1.2 = None → (validName ch uidx).1.1 ≠ "".
Proof.
  unfold validName.
  destruct (decide (Channel.NameNormalized ch = "")) as [Hnn|Hnn].
  - rewrite bool_decide_eq_false_2 by (by intros []).
    destruct (Channel.IsIM ch); simpl; [|done].
    by destruct (uidx !! Channel.User ch).
  - by rewrite bool_decide_eq_true_2.
Qed.

Lemma string_app_cons (x : Ascii.ascii) (a b : string) :
  String x a +:+ b = String x (a +:+ b).
Proof. reflexivity. Qed.

Lemma string_app_assoc (a b c : string) : (a +:+ b) +:+ c = a +:+ (b +:+ c).
Proof.
  induction a as [|x a IH]; [done|]. by rewrite !string_app_cons, IH.
Qed.

Lemma hasSeparator_app (a b : string) :
  hasSeparator (a +:+ "/" +:+ b) = true.
Proof.
  induction a as [|x a IH]; [done|]. rewrite string_app_cons. simpl.
  by destruct (decide (x = Ascii.ascii_of_nat 47)).
Qed.

Lemma Join_inj_r (a b1 b2 : string) :
  b1 ≠ "" → b2 ≠ "" → Join a b1 = Join a b2 → b1 = b2.
Proof.
  intros H1 H2. rewrite !Join_nonempty_r by done.
  destruct (decide (a = "")); [done|].
  intros H. by apply (inj (String.app a)), (inj (String.app "/")) in H.
Qed.

(** A file right under the export directory is no file of a channel
    directory. *)
Lemma top_level_not_in_channel se channelName y msgs :
  channelName ≠ "" → y ≠ "" → hasSeparator y = false →
  Join (dir se) y ∉ dateFiles se channelName msgs.
Proof.
  intros Hname Hy Hsep. unfold dateFiles.
  rewrite list_elem_of_fmap. intros (d & Heq & _).
  assert (Hd : d +:+ ".json" ≠ "").
  { intros H. apply (f_equal String.length) in H.
    rewrite string_length_app in H. simpl in H. lia. }
  assert (Hbase : basedir se channelName ≠ "").
  { unfold basedir, Join. destruct (decide (dir se = "")); [done|].
    rewrite decide_False by done. by destruct (dir se). }
  rewrite (Join_nonempty_r (basedir se channelName)) in Heq by done.
  rewrite decide_False in Heq by done.
  unfold basedir in Heq. rewrite !Join_nonempty_r in Heq by done.
  destruct (decide (dir se = "")).
  - subst y. by rewrite hasSeparator_app in Hsep.
  - rewrite string_app_assoc in Heq.
    apply (inj (String.app (dir se))) in Heq.
    change ("/" +:+ y = "/" +:+ (channelName +:+ "/" +:+ d +:+ ".json")) in Heq.
    apply (inj (String.app "/")) in Heq.
    subst y. by rewrite hasSeparator_app in Hsep.
Qed.

Lemma exportConversation_top_level se ch users s y :
  y ≠ "" → hasSeparator y = false →
  files (exportConversation env se ch users s).1 !! Join (dir se) y
  = files s !! Join (dir se) y.
Proof.
  intros Hy Hsep. apply exportConversation_other. intros Hok.
  apply top_level_not_in_channel; [|done|done].
  by apply validName_ok_nonempty.
Qed.

Lemma streamLoop_top_level se users chans s acc y :
  y ≠ "" → hasSeparator y = false →
  files (streamLoop (messagesCallback env se users) chans (s, acc)).1.1
    !! Join (dir se) y
  = files s !! Join (dir se) y.
Proof.
  intros Hy Hsep. revert s acc.
  induction chans as [|ch chans IH]; intros s acc; simpl; [done|].
  pose proof (exportConversation_top_level se ch users s y Hy Hsep) as Hc.
  destruct (exportConversation env se ch users s) as [s1 [e|]];
    simpl in *; [done|].
  by rewrite IH.
Qed.

Lemma prepared_files se s : files (prepared se s) = files s.
Proof. unfold prepared. by destruct (IncludeFiles (opts se)). Qed.

(** With a stopped downloader the dump of a history leaves the state
    as it is. *)
Lemma dumpPages_not_started se channelName pages channelID acc s :
  started (dl s) = false →
  (dumpPages pages channelID (downloadFn env se channelName) acc s).1 = s.
Proof.
  intros Hoff. revert acc.
  induction pages as [|page rest IH]; intros acc; simpl; [done|].
  unfold downloadFn. rewrite downloadLoop_not_started by done. apply IH.
Qed.

Lemma exportConversation_not_started se ch users s :
  started (dl s) = false →
  dl (exportConversation env se ch users s).1 = dl s.
Proof.
  intros Hoff. unfold exportConversation, DumpMessagesRaw.
  destruct (remoteHistory _ _ _ _) as [pages rerr].
  pose proof (dumpPages_not_started se (Channel.Name ch) pages (Channel.ID ch)
                [] s Hoff) as Hd.
  destruct (dumpPages pages _ _ [] s) as [s1 [ms [e|]]]; simpl in Hd; subst s1;
    [done|].
  destruct rerr as [e|]; [done|].
  destruct (bool_decide _); [done|].
  destruct (byDate env _ users) as [msgs [e|]]; [done|].
  destruct (validName ch (IndexByID users)) as [[name [e|]] traced]; [done|].
  by destruct (saveChannel_rest env se name msgs (emit traced s)) as (_ & -> & _).
Qed.

Lemma streamLoop_not_started se users chans s acc :
  started (dl s) = false →
  dl (streamLoop (messagesCallback env se users) chans (s, acc)).1.1 = dl s.
Proof.
  revert s acc. induction chans as [|ch chans IH]; intros s acc Hoff; simpl;
    [done|].
  pose proof (exportConversation_not_started se ch users s Hoff) as Hc.
  destruct (exportConversation env se ch users s) as [s1 [e|]];
    simpl in *; [done|].
  rewrite IH; [done|]. by rewrite Hc.
Qed.

Lemma messages_not_started se users s :
  IncludeFiles (opts se) = false →
  dl (messages env se users s).1 = Downloader_New.
Proof.
  intros Hinc. rewrite messages_unfold. unfold StreamChannels.
  destruct (remoteChannels (dumper se) AllChanTypes) as [chans rerr].
  assert (Hprep : dl (prepared se s) = Downloader_New).
  { unfold prepared. by rewrite Hinc. }
  pose proof (streamLoop_not_started se users chans (prepared se s) []) as Hs.
  rewrite Hprep in Hs. specialize (Hs eq_refl).
  destruct (streamLoop _ chans _) as [[s1 acc] [e|]]; simpl in *; [done|].
  destruct rerr as [e|]; [done|].
  unfold serializeToFile, serialize.
  repeat (destruct (createFails env _) || destruct (encodeFails env _));
    simpl; done.
Qed.

End WholeRun.

Lemma serializeToFile_rest env filename data s :
  dirs (serializeToFile env filename data s).1 = dirs s
  ∧ dl (serializeToFile env filename data s).1 = dl s
  ∧ log (serializeToFile env filename data s).1 = log s.
Proof.
  unfold serializeToFile, serialize.
  destruct (createFails env filename); [done|].
  by destruct (encodeFails env filename).
Qed.

(** X7: when the users cannot be fetched or saved, the run returns
    that very error and does nothing else: no downloader is created,
    no channel is streamed, nothing is logged, and no file but the
    users document can differ; when the fetch itself failed the state
    is untouched. *)
Theorem Run_stops_when_users_fail (env : Env) (se : Export) (s : State)
    (e : error) :
  (users env se s).2.2 = Some e →
  Run env se s = ((users env se s).1, Some e)
  ∧ dl (Run env se s).1 = dl s
  ∧ log (Run env se s).1 = log s
  ∧ dirs (Run env se s).1 = dirs s
  ∧ (∀ p, p ≠ Join (dir se) "users.json" →
       files (Run env se s).1 !! p = files s !! p)
  ∧ ((remoteUsers (dumper se)).2 ≠ None → (Run env se s).1 = s).
Proof.
  intros He. unfold Run.
  assert (Husers : (users env se s).1
                   = (serializeToFile env (Join (dir se) "users.json")
                        (DocUsers (remoteUsers (dumper se)).1) s).1
                   ∨ (users env se s).1 = s).
  { unfold users, GetUsers. destruct (remoteUsers (dumper se)) as [us [e'|]];
      [by right|left]. simpl.
    by destruct (serializeToFile env _ _ s) as [s1 [e'|]]. }
  assert (Hfetch : (remoteUsers (dumper se)).2 ≠ None → (users env se s).1 = s).
  { unfold users, GetUsers. by destruct (remoteUsers (dumper se)) as [us [e'|]]. }
  destruct (users env se s) as [s1 [us [e'|]]]; simpl in *; [|done].
  injection He as ->. split; [done|].
  destruct Husers as [Hs1|Hs1]; [|by subst s1].
  destruct (serializeToFile_rest env (Join (dir se) "users.json")
              (DocUsers (remoteUsers (dumper se)).1) s) as (Hd & Hdl & Hlog).
  rewrite <- Hs1 in Hd, Hdl, Hlog. split_and!; try done.
  intros p Hp. rewrite Hs1. by apply serializeToFile_other.
Qed.

Lemma Run_stops_when_users_fail_witness :
  Run Sample.env Probe.exportNoUsers Probe.used
  = (Probe.used, Some (OtherError "invalid_auth")).
Proof.
  pose proof (Run_stops_when_users_fail Sample.env Probe.exportNoUsers
                Probe.used (OtherError "invalid_auth")) as H.
  destruct H as (Hrun & _).
  - vm_compute. reflexivity.
  - exact Hrun.
Defined.

(** X8: a run without file download and with the users saved never
    starts the downloader and hands it nothing: the downloader is as
    new when the run returns, and the run has made no lifecycle
    call. *)
Theorem Run_without_files_leaves_downloader (env : Env) (se : Export)
    (s : State) :
  IncludeFiles (opts se) = false →
  (users env se s).2.2 = None →
  dl (Run env se s).1 = Downloader_New
  ∧ filter Lifecycle (log (Run env se s).1) = filter Lifecycle (log s).
Proof.
  intros Hinc Hus. unfold Run.
  pose proof (lifecycle_users env se s) as Hu.
  destruct (users env se s) as [s1 [us [e|]]]; simpl in *; [done|].
  pose proof (messages_not_started env se us s1 Hinc) as Hdl.
  pose proof (lifecycle_messages env se us s1) as Hm.
  assert (Hprep : lifecycle (prepared se s1) = (false, filter Lifecycle (log s1))).
  { unfold prepared. by rewrite Hinc. }
  rewrite Hprep in Hm. unfold lifecycle in Hu, Hm.
  injection Hu as _ Hlog. injection Hm as _ Hlog'.
  destruct (messages env se us s1) as [s2 [e|]]; simpl in *;
    (split; [done|congruence]).
Qed.

Lemma Run_without_files_leaves_downloader_witness :
  dl (Run Sample.env Sample.exportNoFiles Sample.empty).1 = Downloader_New.
Proof.
  apply (Run_without_files_leaves_downloader Sample.env Sample.exportNoFiles
           Sample.empty).
  - reflexivity.
  - vm_compute. reflexivity.
Defined.

(** X9: after a run that succeeds, the users document holds the
    fetched users and the channel manifest holds the listed channels
    that have both names, in the order of the listing: no file of a
    channel has taken their place; the backup, when it could be
    written, holds the whole listing. *)
Theorem Run_success_manifests (env : Env) (se : Export) (s s' : State) :
  Run env se s = (s', None) →
  (remoteUsers (dumper se)).2 = None
  ∧ (remoteChannels (dumper se) AllChanTypes).2 = None
  ∧ files s' !! Join (dir se) "users.json"
    = Some (DocUsers (remoteUsers (dumper se)).1)
  ∧ files s' !! Join (dir se) "channels.json"
    = Some (DocChannels
              (filter fullyNamed (remoteChannels (dumper se) AllChanTypes).1))
  ∧ (createFails env (Join (dir se) "channels_full.json.bak") = None →
     encodeFails env (Join (dir se) "channels_full.json.bak") = None →
     files s' !! Join (dir se) "channels_full.json.bak"
     = Some (DocChannels (remoteChannels (dumper se) AllChanTypes).1)).
Proof.
  unfold Run, users, GetUsers.
  destruct (remoteUsers (dumper se)) as [us [e|]]; [done|]. simpl.
  destruct (serializeToFile env (Join (dir se) "users.json") (DocUsers us) s)
    as [s1 [e|]] eqn:Hw; [done|].
  apply serializeToFile_ok in Hw.
  destruct (messages env se us s1) as [s2 [e|]] eqn:Hm; [done|].
  intros [= <-]. rewrite messages_unfold in Hm. unfold StreamChannels in Hm.
  destruct (remoteChannels (dumper se) AllChanTypes) as [chans rerr]. simpl.
  pose proof (streamLoop_top_level env se us chans (prepared se s1) []
                "users.json" ltac:(done) eq_refl) as Hkeep.
  destruct (streamLoop _ chans _) as [[s3 acc] [e|]] eqn:Hloop; [done|].
  apply streamLoop_collects in Hloop. simpl in Hloop, Hkeep. subst acc.
  destruct rerr as [e|]; [done|].
  pose proof (serializeToFile_other env (Join (dir se) "channels_full.json.bak")
                (DocChannels chans) s3) as Hbother.
  pose proof (serializeToFile_lookup env (Join (dir se) "channels_full.json.bak")
                (DocChannels chans) s3) as Hbak.
  destruct (serializeToFile env _ _ s3) as [s4 eb]. simpl in *.
  apply serializeToFile_ok in Hm. subst s2. simpl.
  rewrite filterOutStrangeChannels_filter.
  assert (Hne1 : Join (dir se) "channels.json" ≠ Join (dir se) "users.json").
  { by intros H%Join_inj_r. }
  assert (Hne2 : Join (dir se) "users.json" ≠ Join (dir se) "channels_full.json.bak").
  { by intros H%Join_inj_r. }
  assert (Hne3 : Join (dir se) "channels.json"
                 ≠ Join (dir se) "channels_full.json.bak").
  { by intros H%Join_inj_r. }
  split_and!; try done.
  - rewrite lookup_insert_ne, Hbother, Hkeep, prepared_files by done.
    subst s1. simpl. by rewrite lookup_insert_eq.
  - by rewrite lookup_insert_eq.
  - intros Hc He. rewrite lookup_insert_ne by done. by apply Hbak.
Qed.

Lemma Run_success_manifests_witness :
  files (Run Sample.env Sample.export Sample.empty).1 !! "out/users.json"
  = Some (DocUsers [Sample.alice; Sample.bob])
  ∧ files (Run Sample.env Sample.export Sample.empty).1 !! "out/channels.json"
    = Some (DocChannels [Sample.general]).
Proof.
  pose proof (Run_success_manifests Sample.env Sample.export Sample.empty
                (Run Sample.env Sample.export Sample.empty).1) as H.
  destruct H as (_ & _ & Hu & Hc & _).
  - vm_compute. reflexivity.
  - split; [exact Hu|exact Hc].
Defined.

(** * Properties of the session helpers *)

(** ** Column widths *)

Section Widths.

Variable RuneCountInString : string → nat.

Lemma maxStringLength_loop (strings : list string) (m0 : nat) :
  foldl (λ maxlen x,
           let l := RuneCountInString x in
           if bool_decide (maxlen < l)%nat then l else maxlen)
        m0 strings
  = Nat.max m0 (maxStringLength RuneCountInString strings).
Proof.
  unfold maxStringLength. revert m0.
  induction strings as [|x strings IH]; intros m0; simpl; [lia|].
  rewrite IH, (IH (if bool_decide (0 < _)%nat then _ else _)).
  repeat case_bool_decide; lia.
Qed.

Lemma maxStringLength_cons (x : string) (strings : list string) :
  maxStringLength RuneCountInString (x :: strings)
  = Nat.max (RuneCountInString x) (maxStringLength RuneCountInString strings).
Proof.
  unfold maxStringLength at 1. simpl. rewrite maxStringLength_loop.
  case_bool_decide; lia.
Qed.

End Widths.

(** X10: [maxStringLength] is the maximum of the rune counts: no
    string of the slice has more runes, some string of a slice that is
    not empty has exactly that many, and the empty slice gives zero. *)
Theorem maxStringLength_is_maximum (RuneCountInString : string → nat)
    (strings : list string) :
  (∀ x, x ∈ strings →
     (RuneCountInString x ≤ maxStringLength RuneCountInString strings)%nat)
  ∧ (strings ≠ [] →
     ∃ x, x ∈ strings
          ∧ maxStringLength RuneCountInString strings = RuneCountInString x)
  ∧ maxStringLength RuneCountInString [] = 0%nat.
Proof.
  split_and!; [| |done].
  - induction strings as [|y strings IH]; intros x Hx.
    + by apply elem_of_nil in Hx.
    + rewrite maxStringLength_cons.
      apply elem_of_cons in Hx as [->|Hx]; [lia|].
      specialize (IH x Hx). lia.
  - induction strings as [|y strings IH]; [done|]. intros _.
    rewrite maxStringLength_cons.
    destruct strings as [|z strings].
    + exists y. split; [left|]. unfold maxStringLength; simpl. lia.
    + destruct IH as (x & Hx & Hmax); [done|].
      destruct (decide (RuneCountInString y
                        ≤ maxStringLength RuneCountInString (z :: strings))%nat).
      * exists x. split; [by right|]. lia.
      * exists y. split; [left|]. lia.
Qed.

Lemma maxStringLength_is_maximum_witness :
  (String.length "general" ≤ maxStringLength String.length ["id"; "general"; "im"])%nat
  ∧ ∃ x, x ∈ ["id"; "general"; "im"]
         ∧ maxStringLength String.length ["id"; "general"; "im"]
           = String.length x.
Proof.
  pose proof (maxStringLength_is_maximum String.length ["id"; "general"; "im"])
    as (Hle & Hmax & _).
  split.
  - apply Hle. apply (bool_decide_unpack _). vm_compute. exact I.
  - apply Hmax. discriminate.
Defined.

(** X11: the width of two slices put together is the larger of their
    widths, so the width does not depend on how a slice is cut. *)
Theorem maxStringLength_app (RuneCountInString : string → nat)
    (xs ys : list string) :
  maxStringLength RuneCountInString (xs ++ ys)
  = Nat.max (maxStringLength RuneCountInString xs)
            (maxStringLength RuneCountInString ys).
Proof.
  induction xs as [|x xs IH].
  - reflexivity.
  - rewrite <- app_comm_cons, !maxStringLength_cons, IH. lia.
Qed.

(** ** The user cache *)

Lemma duration_bounds : minDuration = (-9223372036854775808)%Z
                        ∧ maxDuration = 9223372036854775807%Z.
Proof. split; reflexivity. Qed.

(** X12: a cache file is accepted exactly when it has a name, can be
    inspected, is no directory, is not empty and is not older than the
    allowed age. *)
Theorem checkCacheFile_accepts (stat : string → FileInfo.t + error) (now : Z)
    (filename : string) (maxAge : Z) :
  checkCacheFile stat now filename maxAge = None
  ↔ filename ≠ ""
    ∧ ∃ fi, stat filename = inl fi
            ∧ FileInfo.IsDir fi = false
            ∧ FileInfo.Size fi ≠ 0%Z
            ∧ (Since now (FileInfo.ModTime fi) ≤ maxAge)%Z.
Proof.
  unfold checkCacheFile, validateFileStats. split.
  - case_bool_decide as Hname; [done|].
    destruct (stat filename) as [fi|err]; [|done].
    destruct (FileInfo.IsDir fi) eqn:Hdir; [done|].
    case_bool_decide as Hsize; [done|].
    case_bool_decide as Hage; [done|].
    intros _. split; [done|]. exists fi. split_and!; try done. lia.
  - intros (Hname & fi & -> & -> & Hsize & Hage).
    rewrite bool_decide_eq_false_2 by done.
    rewrite bool_decide_eq_false_2 by done.
    by rewrite bool_decide_eq_false_2 by lia.
Qed.

Lemma checkCacheFile_accepts_witness :
  checkCacheFile Probe.stat Probe.clock "users.cache" Probe.hour = None
  ∧ checkCacheFile Probe.stat Probe.clock "cache" Probe.hour ≠ None.
Proof.
  split.
  - apply (checkCacheFile_accepts Probe.stat Probe.clock "users.cache"
             Probe.hour).
    split; [discriminate|].
    exists (FileInfo.mk false 2048 (1699996400 * 10 ^ 9)).
    split_and!; [reflexivity|reflexivity|discriminate|vm_compute; discriminate].
  - intros H.
    apply (checkCacheFile_accepts Probe.stat Probe.clock "cache" Probe.hour)
      in H as (_ & fi & Hstat & Hdir & _).
    vm_compute in Hstat. injection Hstat as <-. discriminate.
Defined.

(** X13: allowing a greater age never turns an accepted cache file
    into a rejected one. *)
Theorem checkCacheFile_monotone (stat : string → FileInfo.t + error) (now : Z)
    (filename : string) (maxAge maxAge' : Z) :
  checkCacheFile stat now filename maxAge = None →
  (maxAge ≤ maxAge')%Z →
  checkCacheFile stat now filename maxAge' = None.
Proof.
  unfold checkCacheFile, validateFileStats.
  case_bool_decide as Hname; [done|].
  destruct (stat filename) as [fi|err]; [|done].
  destruct (FileInfo.IsDir fi); [done|].
  case_bool_decide as Hsize; [done|].
  case_bool_decide as Hage; [done|].
  intros _ Hle. by rewrite bool_decide_eq_false_2 by lia.
Qed.

Lemma checkCacheFile_monotone_witness :
  checkCacheFile Probe.stat Probe.clock "users.cache" (4 * Probe.hour) = None.
Proof.
  apply (checkCacheFile_monotone Probe.stat Probe.clock "users.cache"
           Probe.hour (4 * Probe.hour)).
  - vm_compute. reflexivity.
  - vm_compute. discriminate.
Defined.

(** X14: for a regular file that is not empty, and an allowed age
    below the largest duration, the file is accepted exactly when the
    time since its modification is at most the allowed age, however far
    apart the two instants are; a file modified after the clock reading
    is accepted for every allowed age that is not negative; and with
    the largest duration as allowed age no file expires. *)
Theorem validateFileStats_age (now : Z) (fi : FileInfo.t) (maxAge : Z) :
  FileInfo.IsDir fi = false →
  FileInfo.Size fi ≠ 0%Z →
  ((minDuration ≤ maxAge < maxDuration)%Z →
     (validateFileStats now fi maxAge = None
      ↔ (now - FileInfo.ModTime fi ≤ maxAge)%Z))
  ∧ ((0 ≤ maxAge)%Z → (now ≤ FileInfo.ModTime fi)%Z →
     validateFileStats now fi maxAge = None)
  ∧ (maxAge = maxDuration → validateFileStats now fi maxAge = None).
Proof.
  intros Hdir Hsize. unfold validateFileStats, Since.
  rewrite Hdir. rewrite bool_decide_eq_false_2 by done.
  destruct duration_bounds as [-> ->]. split_and!.
  - intros Hrange. case_bool_decide; split; try done; lia.
  - intros Hpos Hfuture. by rewrite bool_decide_eq_false_2 by lia.
  - intros ->. by rewrite bool_decide_eq_false_2 by lia.
Qed.

Lemma validateFileStats_age_witness :
  validateFileStats Probe.clock (FileInfo.mk false 2048 (1699996400 * 10 ^ 9))
    Probe.hour = None
  ∧ validateFileStats Probe.clock (FileInfo.mk false 2048 (Probe.clock + 5))
      0 = None
  ∧ validateFileStats Probe.clock (FileInfo.mk false 2048 (- 10 ^ 30))
      maxDuration = None.
Proof.
  pose proof (validateFileStats_age Probe.clock
                (FileInfo.mk false 2048 (1699996400 * 10 ^ 9)) Probe.hour
                eq_refl ltac:(discriminate)) as (Hage & _ & _).
  pose proof (validateFileStats_age Probe.clock
                (FileInfo.mk false 2048 (Probe.clock + 5)) 0
                eq_refl ltac:(discriminate)) as (_ & Hfuture & _).
  pose proof (validateFileStats_age Probe.clock
                (FileInfo.mk false 2048 (- 10 ^ 30)) maxDuration
                eq_refl ltac:(discriminate)) as (_ & _ & Hforever).
  split_and!.
  - apply Hage.
    + vm_compute. split; [discriminate|reflexivity].
    + vm_compute. discriminate.
  - apply Hfuture; vm_compute; discriminate.
  - apply Hforever. reflexivity.
Defined.

(** ** Cookies *)

Lemma toPtrCookies_prefix (cc : list Cookie.t) (k : nat) :
  (k ≤ length cc)%nat →
  foldl (λ ret i,
           match cc !! i with
           | Some c => <[i := Some c]> ret
           | None => ret
           end)
        (replicate (length cc) None) (seq 0 k)
  = (Some <$> take k cc) ++ replicate (length cc - k) None.
Proof.
  induction k as [|k IH]; intros Hk.
  - simpl. by rewrite Nat.sub_0_r.
  - rewrite seq_S, foldl_app. simpl. rewrite IH by lia.
    destruct (lookup_lt_is_Some_2 cc k) as [c Hc]; [lia|]. rewrite Hc.
    rewrite insert_app_r_alt by (rewrite length_fmap, length_take_le; lia).
    rewrite length_fmap, length_take_le, Nat.sub_diag by lia.
    replace (length cc - k)%nat with (S (length cc - S k)) by lia.
    rewrite (take_S_r _ _ _ Hc), fmap_app. simpl. by rewrite <- app_assoc.
Qed.

Lemma toPtrCookies_fmap (cc : list Cookie.t) : toPtrCookies cc = Some <$> cc.
Proof.
  unfold toPtrCookies. rewrite toPtrCookies_prefix by done.
  by rewrite take_ge, Nat.sub_diag, app_nil_r.
Qed.

Lemma deRefCookies_prefix_nil (pp : list CookiePtr) (k : nat) :
  (k ≤ length pp)%nat → None ∈ take k pp →
  foldl (λ acc i,
           match acc, pp !! i with
           | Some ret, Some (Some c) => Some (<[i := c]> ret)
           | _, _ => None
           end)
        (Some (replicate (length pp) Cookie_zero)) (seq 0 k)
  = None.
Proof.
  induction k as [|k IH]; intros Hk Hnil.
  - by apply elem_of_nil in Hnil.
  - rewrite seq_S, foldl_app. simpl.
    destruct (lookup_lt_is_Some_2 pp k) as [p Hp]; [lia|].
    rewrite (take_S_r _ _ _ Hp) in Hnil. rewrite Hp.
    apply elem_of_app in Hnil as [Hnil|Hnil].
    + by rewrite IH by (lia || done).
    + apply list_elem_of_singleton in Hnil. subst p.
      by destruct (foldl _ _ _).
Qed.

Lemma deRefCookies_prefix_ok (pp : list CookiePtr) (k : nat)
    (vs : list Cookie.t) :
  (k ≤ length pp)%nat → take k pp = Some <$> vs →
  foldl (λ acc i,
           match acc, pp !! i with
           | Some ret, Some (Some c) => Some (<[i := c]> ret)
           | _, _ => None
           end)
        (Some (replicate (length pp) Cookie_zero)) (seq 0 k)
  = Some (vs ++ replicate (length pp - k) Cookie_zero).
Proof.
  revert vs. induction k as [|k IH]; intros vs Hk Hvs.
  - simpl in *. symmetry in Hvs. apply fmap_nil_inv in Hvs. subst vs.
    simpl. by rewrite Nat.sub_0_r.
  - rewrite seq_S, foldl_app. simpl.
    destruct (lookup_lt_is_Some_2 pp k) as [p Hp]; [lia|].
    rewrite (take_S_r _ _ _ Hp) in Hvs. symmetry in Hvs.
    apply fmap_app_inv in Hvs as (vs1 & vs2 & Hvs1 & Hvs2 & ->).
    destruct vs2 as [|c [|c' vs2]]; try done. injection Hvs2 as ->.
    rewrite (IH vs1) by (lia || done). rewrite Hp.
    assert (Hlen : length vs1 = k).
    { apply (f_equal length) in Hvs1.
      by rewrite length_fmap, length_take_le in Hvs1 by lia. }
    rewrite insert_app_r_alt by lia. rewrite Hlen, Nat.sub_diag.
    replace (length pp - k)%nat with (S (length pp - S k)) by lia.
    simpl. by rewrite <- app_assoc.
Qed.

Lemma pointers_nil_or_all (pp : list CookiePtr) :
  None ∈ pp ∨ ∃ vs : list Cookie.t, pp = Some <$> vs.
Proof.
  induction pp as [|[c|] pp IH].
  - right. by exists [].
  - destruct IH as [Hnil|(vs & ->)].
    + left. by right.
    + right. by exists (c :: vs).
  - left. by left.
Qed.

Lemma deRefCookies_fmap (vs : list Cookie.t) :
  deRefCookies (Some <$> vs) = Some vs.
Proof.
  unfold deRefCookies.
  rewrite (deRefCookies_prefix_ok _ _ vs) by (done || by rewrite take_ge).
  by rewrite Nat.sub_diag, app_nil_r.
Qed.

Lemma deRefCookies_nil (pp : list CookiePtr) :
  None ∈ pp → deRefCookies pp = None.
Proof.
  intros Hnil. unfold deRefCookies.
  apply deRefCookies_prefix_nil; [done|]. by rewrite take_ge.
Qed.

Lemma not_nil_in_fmap (vs : list Cookie.t) :
  (None : CookiePtr) ∉ (Some <$> vs).
Proof. rewrite list_elem_of_fmap. by intros (c & ? & _). Qed.

(** X15: cookies survive the way to pointers and back: the pointers
    made from a slice point to its cookies, one per cookie and in the
    same order, and reading them gives the slice again. *)
Theorem cookies_round_trip (cc : list Cookie.t) :
  toPtrCookies cc = Some <$> cc
  ∧ length (toPtrCookies cc) = length cc
  ∧ deRefCookies (toPtrCookies cc) = Some cc.
Proof.
  rewrite toPtrCookies_fmap. split_and!.
  - done.
  - by rewrite length_fmap.
  - apply deRefCookies_fmap.
Qed.

(** X16: reading a slice of pointers panics exactly when one of them
    is nil; otherwise it gives the cookies pointed to, one per pointer
    and in the same order: the result is the slice whose pointers are
    the given ones. *)
Theorem deRefCookies_outcome (pp : list CookiePtr) :
  (deRefCookies pp = None ↔ None ∈ pp)
  ∧ (∀ cc, deRefCookies pp = Some cc ↔ pp = toPtrCookies cc).
Proof.
  split.
  - split; [|apply deRefCookies_nil].
    destruct (pointers_nil_or_all pp) as [Hnil|(vs & ->)]; [done|].
    by rewrite deRefCookies_fmap.
  - intros cc. rewrite toPtrCookies_fmap. split.
    + destruct (pointers_nil_or_all pp) as [Hnil|(vs & ->)].
      * by rewrite deRefCookies_nil.
      * rewrite deRefCookies_fmap. by intros [= ->].
    + intros ->. apply deRefCookies_fmap.
Qed.

Lemma deRefCookies_outcome_witness :
  deRefCookies [Some Probe.session; None; Some Probe.locale] = None
  ∧ deRefCookies [Some Probe.session; Some Probe.locale]
    = Some [Probe.session; Probe.locale].
Proof.
  split.
  - apply (deRefCookies_outcome [Some Probe.session; None; Some Probe.locale]).
    apply (bool_decide_unpack _). vm_compute. exact I.
  - apply (deRefCookies_outcome [Some Probe.session; Some Probe.locale]).
    reflexivity.
Defined.

(** X17: [NewCookieFileAuth] refuses an empty token before it looks at
    the cookie file; a provider it returns without error carries the
    given token, which is not empty, and the cookies of the file, one
    per parsed pointer and in their order; every error comes with the
    zero provider; and it panics only when the parser succeeded with a
    nil pointer among the cookies. *)
Theorem NewCookieFileAuth_outcome (ErrNoToken : error)
    (ParseFile : string → list CookiePtr * option error)
    (tok cookieFile : string) :
  (tok = "" →
     NewCookieFileAuth ErrNoToken ParseFile tok cookieFile
     = Some (CookieFileAuth_zero, Some ErrNoToken))
  ∧ (∀ auth,
       NewCookieFileAuth ErrNoToken ParseFile tok cookieFile = Some (auth, None) →
       tok ≠ ""
       ∧ (ParseFile cookieFile).2 = None
       ∧ token (provider auth) = tok
       ∧ toPtrCookies (cookies (provider auth)) = (ParseFile cookieFile).1)
  ∧ (∀ auth e,
       NewCookieFileAuth ErrNoToken ParseFile tok cookieFile
       = Some (auth, Some e) →
       auth = CookieFileAuth_zero
       ∧ (tok ≠ "" → (ParseFile cookieFile).2 = Some e))
  ∧ (NewCookieFileAuth ErrNoToken ParseFile tok cookieFile = None
     ↔ tok ≠ "" ∧ (ParseFile cookieFile).2 = None
       ∧ None ∈ (ParseFile cookieFile).1).
Proof.
  unfold NewCookieFileAuth.
  case_bool_decide as Htok.
  { split_and!; try done.
    - intros auth e [= <- _]. done.
    - split; [done|]. by intros [? _]. }
  destruct (ParseFile cookieFile) as [ptrs [e|]]; simpl.
  { split_and!; try done.
    - intros auth e' [= <- <-]. done.
    - split; [done|]. by intros (_ & ? & _). }
  destruct (pointers_nil_or_all ptrs) as [Hnil|(vs & ->)].
  - rewrite (deRefCookies_nil _ Hnil). split_and!; try done.
  - rewrite deRefCookies_fmap. split_and!; try done.
    + intros auth [= <-]. simpl. by rewrite toPtrCookies_fmap.
    + split; [done|]. intros (_ & _ & Hnil). by apply not_nil_in_fmap in Hnil.
Qed.

Lemma NewCookieFileAuth_outcome_witness :
  NewCookieFileAuth (OtherError "no token") Probe.parse "" "cookies.txt"
  = Some (CookieFileAuth_zero, Some (OtherError "no token"))
  ∧ toPtrCookies [Probe.session; Probe.locale] = (Probe.parse "cookies.txt").1.
Proof.
  pose proof (NewCookieFileAuth_outcome (OtherError "no token") Probe.parse
                "" "cookies.txt") as (Hempty & _).
  pose proof (NewCookieFileAuth_outcome (OtherError "no token") Probe.parse
                "xoxc-1" "cookies.txt") as (_ & Hok & _).
  split.
  - apply Hempty. reflexivity.
  - apply (Hok (mkCookieFileAuth
                  (mkSimpleProvider "xoxc-1" [Probe.session; Probe.locale]))).
    vm_compute. reflexivity.
Defined.

(** * The downloader is started before the channels *)

Section StartFirst.

Variable env : Env.

Lemma log_emit evs s : log s `prefix_of` log (emit evs s).
Proof. by exists evs. Qed.

Lemma log_downloadLoop dir n fs s :
  log s `prefix_of` log (downloadLoop env dir n fs s).1.
Proof.
  revert s. induction fs as [|f rest IH]; intros s; simpl; [done|].
  unfold DownloadFile. destruct (started (dl s)); simpl; [|done].
  destruct (fetchFails env f) as [e|].
  - by destruct (errors_Is e ErrNotStarted).
  - etrans; [|apply IH]. simpl. by apply prefix_app_r.
Qed.

Lemma log_dumpPages se channelName pages channelID acc s :
  log s `prefix_of`
    log (dumpPages pages channelID (downloadFn env se channelName) acc s).1.
Proof.
  revert acc s. induction pages as [|page rest IH]; intros acc s; simpl; [done|].
  pose proof (log_downloadLoop
                (Join (basedir se channelName) "attachments")
                (length (ExtractFiles page)) (ExtractFiles page) s) as Hp.
  unfold downloadFn.
  destruct (downloadLoop env _ _ _ s) as [s1 [r [e|]]]; simpl in *; [done|].
  etrans; [exact Hp|apply IH].
Qed.

Lemma log_DumpMessagesRaw se channelName channelID oldest latest s :
  log s `prefix_of`
    log (DumpMessagesRaw (dumper se) channelID oldest latest
           (downloadFn env se channelName) s).1.
Proof.
  unfold DumpMessagesRaw.
  destruct (remoteHistory (dumper se) channelID oldest latest) as [pages rerr].
  pose proof (log_dumpPages se channelName pages channelID [] s) as Hp.
  destruct (dumpPages pages channelID _ [] s) as [s1 [ms [e|]]];
    simpl in *; [done|].
  by destruct rerr.
Qed.

Lemma log_exportConversation se ch users s :
  log s `prefix_of` log (exportConversation env se ch users s).1.
Proof.
  unfold exportConversation.
  pose proof (log_DumpMessagesRaw se (Channel.Name ch) (Channel.ID ch)
                (Oldest (opts se)) (Latest (opts se)) s) as Hd.
  destruct (DumpMessagesRaw _ _ _ _ _ s) as [s1 [conv [e|]]];
    simpl in *; [done|].
  destruct (bool_decide _); [done|].
  destruct (byDate env conv users) as [msgs [e|]]; [done|].
  destruct (validName ch (IndexByID users)) as [[name [e|]] traced]; simpl.
  - etrans; [exact Hd|apply log_emit].
  - destruct (saveChannel_rest env se name msgs (emit traced s1))
      as (_ & _ & ->).
    etrans; [exact Hd|apply log_emit].
Qed.

Lemma log_streamLoop se users chans s acc :
  log s `prefix_of`
    log (streamLoop (messagesCallback env se users) chans (s, acc)).1.1.
Proof.
  revert s acc. induction chans as [|ch chans IH]; intros s acc; simpl; [done|].
  pose proof (log_exportConversation se ch users s) as Hc.
  destruct (exportConversation env se ch users s) as [s1 [e|]];
    simpl in *; [done|].
  etrans; [exact Hc|apply IH].
Qed.

Lemma log_messages se users s :
  log (prepared se s) `prefix_of` log (messages env se users s).1.
Proof.
  rewrite messages_unfold. unfold StreamChannels.
  destruct (remoteChannels (dumper se) AllChanTypes) as [chans rerr].
  pose proof (log_streamLoop se users chans (prepared se s) []) as Hs.
  destruct (streamLoop _ chans _) as [[s1 acc] [e|]]; simpl in *; [done|].
  destruct rerr as [e|]; [done|].
  destruct (serializeToFile_rest env (Join (dir se) "channels_full.json.bak")
              (DocChannels acc) s1) as (_ & _ & Hb).
  destruct (serializeToFile env _ _ s1) as [s2 e]; simpl in *.
  destruct (serializeToFile_rest env (Join (dir se) "channels.json")
              (DocChannels (filterOutStrangeChannels acc).1)
              (emit (filterOutStrangeChannels acc).2 s2)) as (_ & _ & ->).
  simpl. rewrite Hb. by apply prefix_app_r.
Qed.

Lemma log_users se s : log (users env se s).1 = log s.
Proof.
  unfold users. destruct (GetUsers (dumper se)) as [us [e|]]; [done|].
  destruct (serializeToFile_rest env (Join (dir se) "users.json")
              (DocUsers us) s) as (_ & _ & Hl).
  by destruct (serializeToFile env _ _ s) as [s1 [e|]].
Qed.

(** The downloader keeps running while channels are exported. *)
Lemma streamLoop_keeps_running se users chans s acc :
  started (dl s) = true →
  started (dl (streamLoop (messagesCallback env se users) chans (s, acc)).1.1)
  = true.
Proof.
  intros Hon.
  pose proof (lifecycle_streamLoop env se users chans s acc) as Hl.
  unfold lifecycle in Hl. injection Hl as -> _. done.
Qed.

Lemma no_lifecycle_in_suffix (l evs : list Event) :
  filter Lifecycle (l ++ evs) = filter Lifecycle l →
  Forall (λ e, ¬ Lifecycle e) evs.
Proof.
  rewrite filter_app. intros H.
  assert (Hnone : filter Lifecycle evs = []).
  { apply (app_inv_head (filter Lifecycle l)). by rewrite app_nil_r. }
  apply Forall_forall. intros e He Hlife.
  by apply (filter_nil_not_elem_of _ _ e Hnone Hlife).
Qed.

End StartFirst.

(** What the downloader holds when [messages] returns is what the
    stream of channels left in it. *)
Lemma dl_messages (env : Env) (se : Export) (users : Users) (s : State) :
  dl (messages env se users s).1
  = dl (streamLoop (messagesCallback env se users)
          (remoteChannels (dumper se) AllChanTypes).1 (prepared se s, [])).1.1.
Proof.
  rewrite messages_unfold. unfold StreamChannels.
  destruct (remoteChannels (dumper se) AllChanTypes) as [chans rerr]. simpl.
  destruct (streamLoop _ chans _) as [[s1 acc] [e|]]; simpl; [done|].
  destruct rerr as [e|]; [done|].
  destruct (serializeToFile_rest env (Join (dir se) "channels_full.json.bak")
              (DocChannels acc) s1) as (_ & Hb & _).
  destruct (serializeToFile env _ _ s1) as [s2 e]; simpl in *.
  destruct (serializeToFile_rest env (Join (dir se) "channels.json")
              (DocChannels (filterOutStrangeChannels acc).1)
              (emit (filterOutStrangeChannels acc).2 s2)) as (_ & -> & _).
  done.
Qed.

(** C6, as the code has it: with file download enabled and the users
    saved, the downloader is started before the channels are streamed:
    [Start] is the first thing the run adds to the log, before every
    event of a channel; the channels are exported from the state in
    which the new downloader has been started, it runs while each of
    them is exported, and what it holds when [Run] returns is what
    that stream handed to it; [Start] is the one lifecycle call the run
    makes; the run never calls [Stop], and the downloader is still
    running when [Run] returns. *)
Theorem Run_never_stops_downloader (env : Env) (se : Export) (s : State) :
  IncludeFiles (opts se) = true →
  (users env se s).2.2 = None →
  lifecycle (Run env se s).1
  = (true, filter Lifecycle (log s) ++ [DownloaderStart])
  ∧ ((DownloaderStop ∉ log s) → DownloaderStop ∉ log (Run env se s).1)
  ∧ (∃ evs, log (Run env se s).1 = log s ++ DownloaderStart :: evs
            ∧ Forall (λ e, ¬ Lifecycle e) evs)
  ∧ dl (Run env se s).1
    = dl (streamLoop (messagesCallback env se (users env se s).2.1)
            (remoteChannels (dumper se) AllChanTypes).1
            (Start (setDl (λ _, Downloader_New) (users env se s).1), [])).1.1
  ∧ (∀ pre,
       started (dl (streamLoop
                      (messagesCallback env se (users env se s).2.1) pre
                      (Start (setDl (λ _, Downloader_New) (users env se s).1),
                       [])).1.1)
       = true).
Proof.
  intros Hinc Hus.
  destruct (Run_lifecycle_with_files env se s Hinc Hus) as [Hlife Hstop].
  assert (Hrun : (Run env se s).1
                 = (messages env se (users env se s).2.1 (users env se s).1).1).
  { unfold Run. destruct (users env se s) as [s1 [us [e|]]]; simpl in *;
      [done|]. by destruct (messages env se us s1) as [s2 [e|]]. }
  assert (Hprep : prepared se (users env se s).1
                  = Start (setDl (λ _, Downloader_New) (users env se s).1)).
  { unfold prepared. by rewrite Hinc. }
  split_and!; try done.
  - pose proof (log_messages env se (users env se s).2.1 (users env se s).1)
      as [evs Hevs].
    rewrite <- Hrun, Hprep in Hevs.
    simpl in Hevs. rewrite log_users, <- app_assoc in Hevs. simpl in Hevs.
    exists evs. split; [done|].
    apply (no_lifecycle_in_suffix (log s ++ [DownloaderStart])).
    unfold lifecycle in Hlife. injection Hlife as _ Hlife.
    rewrite <- app_assoc. simpl. rewrite <- Hevs, Hlife.
    rewrite filter_app. f_equal.
  - by rewrite Hrun, dl_messages, Hprep.
  - intros pre. by apply streamLoop_keeps_running.
Qed.

Lemma Run_never_stops_downloader_witness :
  lifecycle (Run Sample.env Sample.export Sample.empty).1
  = (true, [DownloaderStart])
  ∧ (∃ evs, log (Run Sample.env Sample.export Sample.empty).1
            = DownloaderStart :: evs
            ∧ Forall (λ e, ¬ Lifecycle e) evs)
  ∧ started (dl (streamLoop
                   (messagesCallback Sample.env Sample.export
                      [Sample.alice; Sample.bob])
                   [Sample.general]
                   (Start (setDl (λ _, Downloader_New)
                             (users Sample.env Sample.export Sample.empty).1),
                    [])).1.1)
    = true.
Proof.
  pose proof (Run_never_stops_downloader Sample.env Sample.export Sample.empty)
    as H.
  destruct H as (Hlife & _ & Horder & _ & Hrunning).
  - reflexivity.
  - vm_compute. reflexivity.
  - split_and!; [exact Hlife|exact Horder|exact (Hrunning [Sample.general])].
Defined.
